(** * IPL analytics dashboard: the query layer of [app.py]

  [app.py] loads [matches.csv] and [deliveries.csv] into an in-memory
  SQLite database and renders a Streamlit page.  Every figure on the page
  is the result of an aggregate SQL query whose text is an f-string, or a
  little arithmetic on such results.

  The embedding below keeps that shape:
  - [Sql]      : SQL values with NULL, three-valued truth, WHERE, COUNT,
                 SUM, DISTINCT, GROUP BY and ORDER BY on lists of rows;
  - [Py]       : the Python values that reach a widget, with truthiness;
  - [Script]   : a writer/exception monad for the page (queries that ran,
                 widgets that were drawn, [st.stop()], exceptions);
  - [App]      : the tables, one constructor per query of the program with
                 its meaning, and the four sections the properties are
                 about (batsman tab, team tab, bowler tab, head-to-head);
  - [Dashboard]: start-up, the overview tab, the season winners, and the
                 page from its title to the season winners.
*)

From Stdlib Require Import ZArith List String Ascii Bool Lia.
From Stdlib Require Import DecimalString DecimalZ DecimalPos.
From Stdlib Require Import Sorted OrderedTypeEx Permutation.
Import ListNotations.

Local Open Scope string_scope.
Local Open Scope Z_scope.

(* ===================================================================== *)
(** ** SQL values and aggregates *)
(* ===================================================================== *)

Module Sql.

(** A TEXT cell: [None] is NULL (pandas writes a missing CSV cell as NULL). *)
Definition text := option string.

(** An INTEGER cell. *)
Definition int := option Z.

(** SQL truth values: [None] is the unknown value NULL. *)
Definition tri := option bool.

(** [col = 'lit'] *)
Definition eq_text (c : text) (lit : string) : tri :=
  match c with
  | None => None
  | Some s => Some (String.eqb s lit)
  end.

(** [col = n] *)
Definition eq_int (c : int) (n : Z) : tri :=
  match c with
  | None => None
  | Some z => Some (Z.eqb z n)
  end.

(** [col IS NULL] and [col IS NOT NULL]: never unknown. *)
Definition is_null {A} (c : option A) : tri :=
  match c with
  | None => Some true
  | Some _ => Some false
  end.

Definition is_not_null {A} (c : option A) : tri :=
  match c with
  | None => Some false
  | Some _ => Some true
  end.

(** [col NOT IN ('a', 'b', ...)] with a list of non-NULL literals. *)
Definition not_in (c : text) (lits : list string) : tri :=
  match c with
  | None => None
  | Some s => Some (negb (existsb (String.eqb s) lits))
  end.

(** Kleene conjunction and disjunction. *)
Definition and3 (a b : tri) : tri :=
  match a, b with
  | Some false, _ => Some false
  | _, Some false => Some false
  | Some true, Some true => Some true
  | _, _ => None
  end.

Definition or3 (a b : tri) : tri :=
  match a, b with
  | Some true, _ => Some true
  | _, Some true => Some true
  | Some false, Some false => Some false
  | _, _ => None
  end.

(** A row passes WHERE, and a CASE WHEN branch is taken, only when the
    condition is true: false and unknown both reject. *)
Definition holds (t : tri) : bool :=
  match t with
  | Some true => true
  | _ => false
  end.

Definition where_ {R} (p : R -> tri) (rows : list R) : list R :=
  filter (fun r => holds (p r)) rows.

(** [CASE WHEN c THEN a ELSE b END] *)
Definition case_when {A} (c : tri) (a b : A) : A :=
  if holds c then a else b.

(** [COUNT( * )] *)
Definition count_star {R} (rows : list R) : Z :=
  Z.of_nat (List.length rows).

(** [COUNT(expr)]: the rows on which [expr] is not NULL. *)
Definition count {R A} (expr : R -> option A) (rows : list R) : Z :=
  Z.of_nat (List.length (filter (fun r => match expr r with
                                     | Some _ => true
                                     | None => false
                                     end) rows)).

(** [SUM(expr)] for an expression that is never NULL: NULL on no rows. *)
Definition sum {R} (expr : R -> Z) (rows : list R) : int :=
  match rows with
  | [] => None
  | _ => Some (fold_right (fun r acc => expr r + acc) 0 rows)
  end.

(** Equality of cells as DISTINCT and GROUP BY see it: NULL is one value. *)
Definition same (a b : text) : bool :=
  match a, b with
  | None, None => true
  | Some x, Some y => String.eqb x y
  | _, _ => false
  end.

(** ORDER BY on a TEXT column, ascending: NULL first, then the strings
    in the order of their characters' codes. *)
Definition le_text (a b : text) : bool :=
  match a, b with
  | None, _ => true
  | Some _, None => false
  | Some x, Some y => String.leb x y
  end.

Definition lt_text (a b : text) : bool := negb (le_text b a).

(** Sorted insertion that drops a value already present. *)
Fixpoint insert_distinct (v : text) (l : list text) : list text :=
  match l with
  | [] => [v]
  | x :: l' =>
      if same v x then l
      else if le_text v x then v :: l
      else x :: insert_distinct v l'
  end.

(** [SELECT DISTINCT col ... ORDER BY col] *)
Definition distinct_sorted (vals : list text) : list text :=
  fold_right insert_distinct [] vals.

(** GROUP BY a TEXT expression with COUNT( * ): one pair per key. *)
Fixpoint bump (k : text) (groups : list (text * Z)) : list (text * Z) :=
  match groups with
  | [] => [(k, 1)]
  | (k', n) :: rest =>
      if same k k' then (k', n + 1) :: rest
      else (k', n) :: bump k rest
  end.

Definition group_count (keys : list text) : list (text * Z) :=
  fold_right bump [] keys.

(** ORDER BY the count, descending.  SQL leaves the order of groups with
    equal counts open; the insertion below fixes one such order, and no
    statement in this file depends on which. *)
Fixpoint insert_desc (g : text * Z) (l : list (text * Z)) : list (text * Z) :=
  match l with
  | [] => [g]
  | h :: l' =>
      if snd h <? snd g then g :: l
      else h :: insert_desc g l'
  end.

Definition order_by_count_desc (groups : list (text * Z)) : list (text * Z) :=
  fold_right insert_desc [] groups.

(** LIMIT n *)
Definition limit {A} (n : nat) (rows : list A) : list A := firstn n rows.

(** The f-strings put a selected name between two apostrophes.  That text
    is the SQL literal for the name exactly when the name itself carries
    no apostrophe; [plain] recognises those names. *)
Fixpoint plain (s : string) : bool :=
  match s with
  | EmptyString => true
  | String c s' => negb (Ascii.eqb c "'"%char) && plain s'
  end.

End Sql.

(* ===================================================================== *)
(** ** Python values that reach a widget *)
(* ===================================================================== *)

Module Py.

Inductive value :=
| PNone
| PInt (z : Z)
| PStr (s : string).

(** [bool(v)]: None, 0 and the empty string are false. *)
Definition truthy (v : value) : bool :=
  match v with
  | PNone => false
  | PInt z => negb (z =? 0)
  | PStr s => negb (String.eqb s EmptyString)
  end.

Definition of_int (c : Sql.int) : value :=
  match c with
  | None => PNone
  | Some z => PInt z
  end.

Definition of_text (c : Sql.text) : value :=
  match c with
  | None => PNone
  | Some s => PStr s
  end.

(** [v > 0] for a number. *)
Definition gt0 (v : value) : bool :=
  match v with
  | PInt z => 0 <? z
  | _ => false
  end.

(** [int(v) if v else 0] *)
Definition int_or_zero (v : value) : Z :=
  if truthy v then match v with PInt z => z | _ => 0 end else 0.

(** [str(n)] for an integer, as an f-string field prints it. *)
Definition str (n : Z) : string := NilZero.string_of_int (Z.to_int n).

End Py.

(* ===================================================================== *)
(** ** The page as a computation *)
(* ===================================================================== *)

Module Script.

(** The one exception class the program names: [pd.errors.DatabaseError],
    which [pd.read_sql_query] raises when SQLite rejects a statement. *)
Inductive exn :=
| DatabaseError (msg : string).

(** How a piece of the script ends.
    - [Done a]  : it ran to its end with value [a];
    - [Stop]    : it called [st.stop()];
    - [Raise e] : an exception left it;
    - [Mangled] : it sent SQLite a statement into which a name with an
                  apostrophe had been spliced.  The text sent is then not
                  the statement the f-string spells, and what SQLite makes
                  of it is outside this model. *)
Inductive outcome (A : Type) :=
| Done (a : A)
| Stop
| Raise (e : exn)
| Mangled.

Arguments Done {A} a.
Arguments Stop {A}.
Arguments Raise {A} e.
Arguments Mangled {A}.

(** A script over events [E]: what happened, in order, and how it ended. *)
Definition t (E A : Type) : Type := (list E * outcome A)%type.

Definition ret {E A} (a : A) : t E A := ([], Done a).

Definition bind {E A B} (m : t E A) (k : A -> t E B) : t E B :=
  match m with
  | (log, Done a) => ((log ++ fst (k a))%list, snd (k a))
  | (log, Stop) => (log, Stop)
  | (log, Raise e) => (log, Raise e)
  | (log, Mangled) => (log, Mangled)
  end.

Definition emit {E} (e : E) : t E unit := ([e], Done tt).

Definition stop {E A} : t E A := ([], Stop).

(** [try: m  except <class>: h], [catches] deciding the class. *)
Definition try_except {E A} (m : t E A) (catches : exn -> bool)
  (h : exn -> t E A) : t E A :=
  match m with
  | (log, Raise e) =>
      if catches e then ((log ++ fst (h e))%list, snd (h e))
      else (log, Raise e)
  | _ => m
  end.

Definition log {E A} (m : t E A) : list E := fst m.
Definition result {E A} (m : t E A) : outcome A := snd m.

End Script.

Declare Scope script_scope.
Delimit Scope script_scope with script.
Notation "x <- m ;; k" := (Script.bind m (fun x => k))
  (at level 61, m at next level, right associativity) : script_scope.
Notation "m ;; k" := (Script.bind m (fun _ => k))
  (at level 61, right associativity) : script_scope.

(* ===================================================================== *)
(** ** The tables and the queries of [app.py] *)
(* ===================================================================== *)

Module App.

Import Sql.
Local Open Scope script_scope.

(** One row of [matches], with the columns the queries below name.
    SQLite reads column names without regard to case, so the [Team1],
    [Team2] and [Winner] of some statements are these same columns. *)
Record Match := {
  team1 : text;
  team2 : text;
  venue : text;
  winner : text
}.

(** One row of [deliveries].  [batter] is the cell of the column that
    identifies the striker, whatever its header is (see [batter_label]). *)
Record Delivery := {
  bowler : text;
  batter : text;
  batsman_runs : int;
  dismissal_kind : text
}.

(** What [setup_database] built.  [batter_label] is the header under which
    [deliveries.csv] carries the striker: releases of the dataset differ
    between [batter] and [batsman].  The other columns are taken to exist
    under the names the queries use. *)
Record Database := {
  matches : list Match;
  deliveries : list Delivery;
  batter_label : string
}.

(** The statements the four sections send, one constructor per f-string,
    with the values spliced into it. *)
Inductive Query :=
| batsmen_query (col : string)
| boundary_query (col selected_batsman : string)
| teams_query
| matches_played_query (selected_team : string)
| matches_won_query (selected_team : string)
| no_result_query (selected_team : string)
| team_venue_query (selected_team : string)
| bowler_query
| bowler_stats_query (selected_bowler : string)
| wicket_types_query (selected_bowler : string)
| h2h_matches_query (team_a team_b : string)
| team_a_wins_query (team_a team_b : string)
| team_b_wins_query (team_a team_b : string).

(** The names a statement carries between apostrophes. *)
Definition splices (q : Query) : list string :=
  match q with
  | batsmen_query _ | teams_query | bowler_query => []
  | boundary_query _ n => [n]
  | matches_played_query t | matches_won_query t
  | no_result_query t | team_venue_query t => [t]
  | bowler_stats_query b | wicket_types_query b => [b]
  | h2h_matches_query a b | team_a_wins_query a b
  | team_b_wins_query a b => [a; b]
  end.

(** The shape of the DataFrame each statement returns, reduced to the
    cells the program reads. *)
Definition DataFrame (q : Query) : Type :=
  match q with
  | batsmen_query _ | teams_query | bowler_query => list text
  | boundary_query _ _ => (int * int)%type
  | matches_played_query _ | matches_won_query _ | no_result_query _ => Z
  | team_venue_query _ | wicket_types_query _ => list (text * Z)
  | bowler_stats_query _ => (Z * Z)%type
  | h2h_matches_query _ _ | team_a_wins_query _ _ | team_b_wins_query _ _ => Z
  end.

(** [Team1 = 'T' OR Team2 = 'T'] *)
Definition plays (T : string) (m : Match) : tri :=
  or3 (eq_text (team1 m) T) (eq_text (team2 m) T).

(** [(team1 = 'A' AND team2 = 'B') OR (team1 = 'B' AND team2 = 'A')] *)
Definition pairing (A B : string) (m : Match) : tri :=
  or3 (and3 (eq_text (team1 m) A) (eq_text (team2 m) B))
      (and3 (eq_text (team1 m) B) (eq_text (team2 m) A)).

(** The dismissal kinds that no bowler is credited with. *)
Definition not_bowlers : list string :=
  ["run out"; "retired hurt"; "obstructing the field"].

(** [dismissal_kind IS NOT NULL AND dismissal_kind NOT IN (...)] *)
Definition credited (d : Delivery) : tri :=
  and3 (is_not_null (dismissal_kind d))
       (not_in (dismissal_kind d) not_bowlers).

(** A query on the striker column fails when it names a header that the
    table does not have. *)
Definition no_such_column (col : string) : Script.exn :=
  Script.DatabaseError ("no such column: " ++ col).

(** The meaning of each statement on the two tables. *)
Definition eval (db : Database) (q : Query) : Script.exn + DataFrame q :=
  match q return Script.exn + DataFrame q with
  | batsmen_query col =>
      (* SELECT DISTINCT <col> FROM deliveries ORDER BY <col> *)
      if String.eqb col (batter_label db)
      then inr (distinct_sorted (map batter (deliveries db)))
      else inl (no_such_column col)
  | boundary_query col name =>
      if String.eqb col (batter_label db)
      then
        let rows := where_ (fun d => eq_text (batter d) name) (deliveries db) in
        inr (sum (fun d => case_when (eq_int (batsman_runs d) 4) 1 0) rows,
             sum (fun d => case_when (eq_int (batsman_runs d) 6) 1 0) rows)
      else inl (no_such_column col)
  | teams_query =>
      (* SELECT DISTINCT team1 FROM matches ORDER BY team1 *)
      inr (distinct_sorted (map team1 (matches db)))
  | matches_played_query T =>
      inr (count_star (where_ (plays T) (matches db)))
  | matches_won_query T =>
      inr (count_star (where_ (fun m => eq_text (winner m) T) (matches db)))
  | no_result_query T =>
      inr (count_star
             (where_ (fun m => and3 (plays T m)
                                 (or3 (is_null (winner m))
                                      (eq_text (winner m) "No Result")))
                     (matches db)))
  | team_venue_query T =>
      inr (limit 10
             (order_by_count_desc
                (group_count
                   (map venue
                      (where_ (fun m => eq_text (winner m) T) (matches db))))))
  | bowler_query =>
      inr (distinct_sorted (map bowler (deliveries db)))
  | bowler_stats_query X =>
      let rows := where_ (fun d => eq_text (bowler d) X) (deliveries db) in
      inr (count (fun d => case_when (credited d) (Some 1) None) rows,
           count_star rows)
  | wicket_types_query X =>
      inr (order_by_count_desc
             (group_count
                (map dismissal_kind
                   (where_ (fun d =>
                              and3 (and3 (eq_text (bowler d) X)
                                         (is_not_null (dismissal_kind d)))
                                   (not_in (dismissal_kind d) not_bowlers))
                           (deliveries db)))))
  | h2h_matches_query A B =>
      inr (count_star (where_ (pairing A B) (matches db)))
  | team_a_wins_query A B =>
      inr (count_star
             (where_ (fun m => and3 (eq_text (winner m) A) (pairing A B m))
                     (matches db)))
  | team_b_wins_query A B =>
      inr (count_star
             (where_ (fun m => and3 (eq_text (winner m) B) (pairing A B m))
                     (matches db)))
  end.

(** What the page does that can be observed. *)
Inductive Widget :=
| header (s : string)
| subheader (s : string)
| metric (label : string) (v : Py.value)
| pie (sizes : list Py.value) (labels : list text) (colors : list string)
| bar_chart (data : list (text * Z))
| write (s : string)
| warning (s : string)
| error (s : string).

Inductive Event :=
| Ran (q : Query)
| Drew (w : Widget).

Definition Page := Script.t Event.

Definition st (w : Widget) : Page unit := Script.emit (Drew w).

(** [run_query]: the statement is sent; it yields its DataFrame, or the
    exception SQLite answers with.  [st.cache_data] may answer a repeated
    statement from memory; the tables never change, so the answer is the
    same. *)
Definition run_query (db : Database) (q : Query) : Page (DataFrame q) :=
  ([Ran q],
   if forallb plain (splices q)
   then match eval db q with
        | inl e => Script.Raise e
        | inr df => Script.Done df
        end
   else Script.Mangled).

(** [if selected:] on a selectbox value, which is a name or None. *)
Definition if_selected (sel : text) (body : string -> Page unit) : Page unit :=
  match sel with
  | Some name => if Py.truthy (Py.PStr name) then body name else Script.ret tt
  | None => Script.ret tt
  end.

(** *** Batsman tab (lines 114-165) *)

Definition is_database_error (e : Script.exn) : bool :=
  match e with Script.DatabaseError _ => true end.

Definition any_exception (e : Script.exn) : bool := true.

(** Lines 117-129: which header the striker column has, and the batsmen.
    The value is [(batsman_col_name, batsmen_list)]. *)
Definition batsmen_lookup (db : Database) : Page (string * list text) :=
  Script.try_except
    (batsmen_list <- run_query db (batsmen_query "batter") ;;
     Script.ret ("batter", batsmen_list))
    is_database_error
    (fun _ =>
       Script.try_except
         (batsmen_list <- run_query db (batsmen_query "batsman") ;;
          Script.ret ("batsman", batsmen_list))
         any_exception
         (fun _ =>
            st (error "Could not find 'batter' or 'batsman' column in deliveries.csv.") ;;
            Script.stop)).

(** Lines 133-165. *)
Definition boundary_section (db : Database) (batsman_col_name : string)
  (selected_batsman : text) : Page unit :=
  if_selected selected_batsman (fun name =>
    boundary_df <- run_query db (boundary_query batsman_col_name name) ;;
    let fours := Py.of_int (fst boundary_df) in
    let sixes := Py.of_int (snd boundary_df) in
    st (subheader ("Boundary Breakdown for " ++ name)) ;;
    st (metric "Total Fours (4s)" (Py.PInt (Py.int_or_zero fours))) ;;
    st (metric "Total Sixes (6s)" (Py.PInt (Py.int_or_zero sixes))) ;;
    if (Py.truthy fours && Py.gt0 fours) || (Py.truthy sixes && Py.gt0 sixes)
    then st (pie [fours; sixes] [Some "Fours"; Some "Sixes"]
               ["#007bff"; "#dc3545"])
    else st (write (name ++ " has not hit any boundaries."))).

(** The whole tab; [selectbox] is the user's choice among the options. *)
Definition tab2 (db : Database) (selectbox : list text -> text) : Page unit :=
  st (header "Batsman Boundary Analysis") ;;
  found <- batsmen_lookup db ;;
  boundary_section db (fst found) (selectbox (snd found)).

(** *** Team tab (lines 172-266) *)

(** Lines 229-236: the loop over [zip(sizes, labels, colors)] keeps the
    triples whose size is positive. *)
Definition non_zero (slices : list (Z * (string * string)))
  : list (Z * (string * string)) :=
  filter (fun s => 0 <? fst s) slices.

Definition team_section (db : Database) (selected_team : text) : Page unit :=
  if_selected selected_team (fun T =>
    st (subheader ("Analysis for " ++ T)) ;;
    total_matches <- run_query db (matches_played_query T) ;;
    total_wins <- run_query db (matches_won_query T) ;;
    total_no_result <- run_query db (no_result_query T) ;;
    let total_losses := total_matches - total_wins - total_no_result in
    st (metric "Total Matches" (Py.PInt total_matches)) ;;
    st (metric "Wins" (Py.PInt total_wins)) ;;
    st (metric "Losses" (Py.PInt total_losses)) ;;
    st (metric "No Result" (Py.PInt total_no_result)) ;;
    st (subheader "Win/Loss Breakdown") ;;
    (if 0 <? total_matches
     then
       let labels := ["Wins"; "Losses"; "No Result"] in
       let sizes := [total_wins; total_losses; total_no_result] in
       let colors := ["#4CAF50"; "#F44336"; "#9E9E9E"] in
       let kept := non_zero (combine sizes (combine labels colors)) in
       match kept with
       | [] => st (write "No match data to display in pie chart.")
       | _ => st (pie (map (fun s => Py.PInt (fst s)) kept)
                      (map (fun s => Some (fst (snd s))) kept)
                      (map (fun s => snd (snd s)) kept))
       end
     else st (write "No matches found for this team.")) ;;
    st (subheader ("Top 10 Winning Venues for " ++ T)) ;;
    team_venue_df <- run_query db (team_venue_query T) ;;
    match team_venue_df with
    | [] => st (write (T ++ " has not registered any wins."))
    | _ => st (bar_chart team_venue_df)
    end).

Definition tab3 (db : Database) (selectbox : list text -> text) : Page unit :=
  st (header "Team Performance Analysis") ;;
  teams_list <- run_query db teams_query ;;
  team_section db (selectbox teams_list).

(** *** Bowler tab (lines 268-331) *)

(** Line 296: [f"{total_balls // 6}.{total_balls % 6}"]. *)
Definition overs_bowled_str (total_balls : Z) : string :=
  Py.str (total_balls / 6) ++ "." ++ Py.str (total_balls mod 6).

Definition bowler_section (db : Database) (selected_bowler : text) : Page unit :=
  if_selected selected_bowler (fun X =>
    bowler_stats_df <- run_query db (bowler_stats_query X) ;;
    let total_wickets := fst bowler_stats_df in
    let total_balls := snd bowler_stats_df in
    st (subheader ("Career Stats for " ++ X)) ;;
    st (metric "Total Wickets Taken" (Py.PInt total_wickets)) ;;
    st (metric "Total Overs Bowled" (Py.PStr (overs_bowled_str total_balls))) ;;
    wicket_types_df <- run_query db (wicket_types_query X) ;;
    st (subheader "Wicket Type Breakdown") ;;
    match wicket_types_df with
    | [] => st (write (X ++ " has not taken any wickets."))
    | _ => st (pie (map (fun g => Py.PInt (snd g)) wicket_types_df)
                   (map fst wicket_types_df) [])
    end).

Definition tab4 (db : Database) (selectbox : list text -> text) : Page unit :=
  st (header "Bowler Wicket Analysis") ;;
  bowler_list <-
    Script.try_except (run_query db bowler_query) any_exception
      (fun e =>
         st (error ("Could not find 'bowler' column in deliveries.csv: "
                    ++ match e with Script.DatabaseError msg => msg end)) ;;
         Script.stop) ;;
  bowler_section db (selectbox bowler_list).

(** *** Head-to-head (lines 408-461), from the two selectbox values on *)

Definition h2h_section (db : Database) (team_a team_b : text) : Page unit :=
  if Py.truthy (Py.of_text team_a) && Py.truthy (Py.of_text team_b)
     && negb (same team_a team_b)
  then
    match team_a, team_b with
    | Some A, Some B =>
        st (subheader (A ++ " vs. " ++ B)) ;;
        h2h_total <- run_query db (h2h_matches_query A B) ;;
        team_a_wins <- run_query db (team_a_wins_query A B) ;;
        team_b_wins <- run_query db (team_b_wins_query A B) ;;
        let h2h_no_result := h2h_total - team_a_wins - team_b_wins in
        if 0 <? h2h_total
        then
          st (metric "Total H2H Matches" (Py.PInt h2h_total)) ;;
          st (metric (A ++ " Wins") (Py.PInt team_a_wins)) ;;
          st (metric (B ++ " Wins") (Py.PInt team_b_wins)) ;;
          st (metric "No Result" (Py.PInt h2h_no_result))
        else st (write "These two teams have not played against each other.")
    | _, _ => Script.ret tt
    end
  else if same team_a team_b
  then st (warning "Please select two different teams for Head-to-Head analysis.")
  else Script.ret tt.

(** *** Reading a page *)

Definition queries_of (log : list Event) : list Query :=
  flat_map (fun e => match e with Ran q => [q] | Drew _ => [] end) log.

Definition widgets_of (log : list Event) : list Widget :=
  flat_map (fun e => match e with Ran _ => [] | Drew w => [w] end) log.

Definition metrics_of (log : list Event) : list (string * Py.value) :=
  flat_map (fun e => match e with
                     | Drew (metric l v) => [(l, v)]
                     | _ => []
                     end) log.

(** The (label, size) pairs of every pie chart drawn, chart by chart. *)
Definition pies_of (log : list Event) : list (list (text * Py.value)) :=
  flat_map (fun e => match e with
                     | Drew (pie sizes labels _) => [combine labels sizes]
                     | _ => []
                     end) log.

End App.

(* ===================================================================== *)
(** ** Plain counting, to state the properties against *)
(* ===================================================================== *)

Module Plain.

Import App.

(** The number of rows with a property. *)
Definition count_if {R} (p : R -> bool) (rows : list R) : Z :=
  Z.of_nat (List.length (filter p rows)).

(** The cell holds the name [T]. *)
Definition is_name (T : string) (c : Sql.text) : bool :=
  match c with
  | Some s => String.eqb s T
  | None => false
  end.

(** [T] is one of the two participants. *)
Definition participant (T : string) (m : Match) : bool :=
  is_name T (team1 m) || is_name T (team2 m).

Definition won_by (T : string) (m : Match) : bool := is_name T (winner m).

(** The winner is null or the text No Result. *)
Definition no_winner (m : Match) : bool :=
  match winner m with
  | None => true
  | Some w => String.eqb w "No Result"
  end.

(** [A] and [B] are the two participants, in either order. *)
Definition between (A B : string) (m : Match) : bool :=
  (is_name A (team1 m) && is_name B (team2 m))
  || (is_name B (team1 m) && is_name A (team2 m)).

(** The delivery fell a wicket that its bowler is credited with. *)
Definition bowlers_wicket (d : Delivery) : bool :=
  match dismissal_kind d with
  | None => false
  | Some k => negb (existsb (String.eqb k) not_bowlers)
  end.

Definition scored (runs : Z) (d : Delivery) : bool :=
  match batsman_runs d with
  | Some r => r =? runs
  | None => false
  end.

Definition total (counts : list Z) : Z := fold_right Z.add 0 counts.

(** How often the key [k] occurs among [keys]. *)
Definition occurrences (k : Sql.text) (keys : list Sql.text) : Z :=
  count_if (Sql.same k) keys.

(** [a] is not listed after [b] by ORDER BY count DESC. *)
Definition not_fewer (a b : Sql.text * Z) : Prop := snd b <= snd a.

(** [a] comes strictly before [b] in an ascending ORDER BY. *)
Definition before (a b : Sql.text) : Prop := Sql.lt_text a b = true.

(** The striker names of the table, each once, in order. *)
Definition batsmen (db : Database) : list Sql.text :=
  Sql.distinct_sorted (map batter (deliveries db)).

(** The message of line 128. *)
Definition column_error : string :=
  "Could not find 'batter' or 'batsman' column in deliveries.csv.".

(** Reading an overs figure back: the text before the first full stop and
    the text after it, each as a decimal numeral. *)
Fixpoint split_at_dot (s : string) : option (string * string) :=
  match s with
  | EmptyString => None
  | String c s' =>
      if Ascii.eqb c "."%char then Some (EmptyString, s')
      else match split_at_dot s' with
           | Some (whole, rest) => Some (String c whole, rest)
           | None => None
           end
  end.

(** No full stop among the characters. *)
Fixpoint no_dot (s : string) : bool :=
  match s with
  | EmptyString => true
  | String c s' => negb (Ascii.eqb c "."%char) && no_dot s'
  end.

Definition read_int (s : string) : option Z :=
  option_map Z.of_int (NilZero.int_of_string s).

Definition read_overs (s : string) : option (Z * Z) :=
  match split_at_dot s with
  | Some (whole, rest) =>
      match read_int whole, read_int rest with
      | Some overs, Some balls => Some (overs, balls)
      | _, _ => None
      end
  | None => None
  end.

(** The balls an overs figure stands for: six per over and the rest. *)
Definition balls_of_overs (s : string) : option Z :=
  option_map (fun ob => 6 * fst ob + snd ob) (read_overs s).

End Plain.

(* ===================================================================== *)
(** ** Sample tables, to run the statements on *)
(* ===================================================================== *)

Module Sample.

Import App.

Definition fixture (t1 t2 : string) (w : Sql.text) : Match :=
  {| team1 := Some t1; team2 := Some t2; venue := Some "Eden Gardens";
     winner := w |}.

Definition ball (bowled_by faced_by : string) (runs : Z) (out : Sql.text)
  : Delivery :=
  {| bowler := Some bowled_by; batter := Some faced_by;
     batsman_runs := Some runs; dismissal_kind := out |}.

(** Four matches among A, B and C, one abandoned and one recorded as
    No Result; six balls by bowler X to batters P and Q. *)
Definition league : Database :=
  {| matches := [fixture "A" "B" (Some "A"); fixture "B" "A" None;
                 fixture "C" "A" (Some "No Result");
                 fixture "A" "C" (Some "C")];
     deliveries := [ball "X" "P" 4 None; ball "X" "P" 1 (Some "caught");
                    ball "X" "Q" 0 (Some "run out"); ball "X" "Q" 0 None;
                    ball "X" "Q" 0 (Some "bowled");
                    ball "X" "P" 4 (Some "caught")];
     batter_label := "batter" |}.

(** A team recorded as the winner of a match it did not play in. *)
Definition stray_winner : Database :=
  {| matches := [fixture "A" "B" (Some "A"); fixture "B" "C" (Some "A")];
     deliveries := [];
     batter_label := "batter" |}.

End Sample.

(* ===================================================================== *)
(** ** The rest of the page: start-up, overview tab, season winners *)
(* ===================================================================== *)

Module Dashboard.

Import Sql App.

(** *** What [setup_database] meets (lines 15-64) *)

(** The columns of [matches] that only the overview tab reads, row by row. *)
Record MatchInfo := {
  id : Sql.int;
  player_of_match : text
}.

(** The four ways start-up can go.  The text is the [{e}] of the message.
    - [files_read]     : both CSVs were read and stored;
    - [file_not_found] : [pd.read_csv] raised FileNotFoundError;
    - [read_failed]    : reading, or converting [date], raised anything else;
    - [store_failed]   : [sqlite3.connect] or [to_sql] raised; that leaves
                         [setup_database] and is caught at line 62. *)
Inductive Disk :=
| files_read (db : Database) (info : list MatchInfo)
| file_not_found (e : string)
| read_failed (e : string)
| store_failed (e : string).

(** Lines 16-64: the error drawn, if any, and the tables, if any.  Each
    error is followed by [st.stop()]. *)
Definition setup_database (d : Disk)
  : list Widget * option (Database * list MatchInfo) :=
  match d with
  | files_read db info => ([], Some (db, info))
  | file_not_found e =>
      ([error ("Error: " ++ e
               ++ ". Please make sure both 'matches.csv' and 'deliveries.csv' are in the same directory as 'app.py'.")],
       None)
  | read_failed e => ([error ("Error loading data: " ++ e)], None)
  | store_failed e => ([error ("Failed to initialize database: " ++ e)], None)
  end.

(** *** Overview tab (lines 77-112) *)

Inductive Statement :=
| ipl_matches_played
| season_query
| pom_query.

(** [COUNT(DISTINCT expr)]: the different non-NULL values. *)
Definition count_distinct (vals : list Sql.int) : Z :=
  Z.of_nat
    (List.length
       (nodup Z.eq_dec
          (flat_map (fun v => match v with Some z => [z] | None => [] end)
             vals))).

(** [SELECT COUNT(DISTINCT id) AS total_ipl FROM matches] *)
Definition total_ipl (info : list MatchInfo) : Z :=
  count_distinct (map id info).

(** [SELECT player_of_match, COUNT( * ) ... WHERE player_of_match IS NOT NULL
     GROUP BY player_of_match ORDER BY pom_count DESC LIMIT 10] *)
Definition pom_df (info : list MatchInfo) : list (text * Z) :=
  limit 10
    (order_by_count_desc
       (group_count
          (map player_of_match
             (where_ (fun r => is_not_null (player_of_match r)) info)))).

(** What the whole page shows: the title, the statements of the overview,
    and the events of the sections of [App]. *)
Inductive PageEvent :=
| Title (s : string)
| Asked (s : Statement)
| Within (e : Event).

Definition shown (w : Widget) : PageEvent := Within (Drew w).

(** Lines 77-112.  [season_df] is the answer to the season statement, taken
    as given: it groups by [season], which SQLite reads as a column of
    [matches] when the CSV has one and as the year of [date] otherwise. *)
Definition tab1 (info : list MatchInfo) (season_df : list (text * Z))
  : list PageEvent :=
  [shown (header "Overall League Statistics");
   Asked ipl_matches_played;
   shown (metric "TOTAL MATCHES PLAYED:" (Py.PInt (total_ipl info)));
   shown (subheader "Matches Per Season");
   Asked season_query;
   shown (bar_chart season_df);
   shown (subheader "Top 10 'Player of the Match'");
   Asked pom_query;
   shown (bar_chart (pom_df info))].

(** *** Season winners (lines 336-397) *)

Record SeasonRow := {
  Season : Z;
  Winner : string;
  Runner_up : string;
  Player_of_Series : string;
  Purple_Cap : string;
  Emerging_Player : string
}.

Definition season_row (s : Z) (w r p c e : string) : SeasonRow :=
  {| Season := s; Winner := w; Runner_up := r; Player_of_Series := p;
     Purple_Cap := c; Emerging_Player := e |}.

Definition season_data : list SeasonRow :=
  [season_row 2008 "RR" "CSK" "Shane Watson" "Sohail Tanvir" "Shreevats Goswami";
   season_row 2009 "DEC" "RCB" "Adam Gilchrist" "RP Singh" "Rohit Sharma";
   season_row 2010 "CSK" "MI" "Sachin Tendulkar" "Pragyan Ojha" "Saurabh Tiwary";
   season_row 2011 "CSK" "RCB" "Chris Gayle" "Lasith Malinga" "Iqbal Abdulla";
   season_row 2012 "KKR" "CSK" "Sunil Narine" "Morné Morkel" "Mandeep Singh";
   season_row 2013 "MI" "CSK" "Shane Watson" "Dwayne Bravo" "Sanju Samson";
   season_row 2014 "KKR" "KXIP" "Glenn Maxwell" "Mohit Sharma" "Axar Patel";
   season_row 2015 "MI" "CSK" "Andre Russell" "Dwayne Bravo" "Shreyas Iyer";
   season_row 2016 "SRH" "RCB" "Virat Kohli" "Bhuvneshwar Kumar" "Mustafizur Rahman";
   season_row 2017 "MI" "RPSG" "Ben Stokes" "Bhuvneshwar Kumar" "Basil Thampi";
   season_row 2018 "CSK" "SRH" "Sunil Narine" "Andrew Tye" "Rishabh Pant";
   season_row 2019 "MI" "CSK" "Andre Russell" "Imran Tahir" "Shubman Gill";
   season_row 2020 "MI" "DC" "Jofra Archer" "Kagiso Rabada" "Devdutt Padikkal";
   season_row 2021 "CSK" "KKR" "Harshal Patel" "Harshal Patel" "Ruturaj Gaikwad";
   season_row 2022 "GT" "RR" "Jos Buttler" "Yuzvendra Chahal" "Umran Malik";
   season_row 2023 "CSK" "GT" "Shubman Gill" "Mohammed Shami" "Yashasvi Jaiswal";
   season_row 2024 "KKR" "SRH" "Sunil Narine" "Harshal Patel" "Nitish Kumar Reddy"].

(** [Series.unique()]: the values in the order of their first occurrence. *)
Fixpoint unique (l : list Z) : list Z :=
  match l with
  | [] => []
  | x :: l' => x :: filter (fun y => negb (y =? x)) (unique l')
  end.

(** The options of the season selectbox and the one it starts on,
    [index = len(options) - 1]. *)
Definition season_options (season_winners_df : list SeasonRow) : list Z :=
  unique (map Season season_winners_df).

Definition season_start (season_winners_df : list SeasonRow) : Z :=
  nth (List.length (season_options season_winners_df) - 1)
      (season_options season_winners_df) 0.

(** Lines 386-397 for the selected season: the five metrics, or [None]
    when [.iloc[0]] finds no row and raises IndexError. *)
Definition season_section (season_winners_df : list SeasonRow)
  (selected_season : Z) : option (list Widget) :=
  if Py.truthy (Py.PInt selected_season)
  then
    match filter (fun r => Season r =? selected_season) season_winners_df with
    | season_info :: _ =>
        Some [metric "Winner" (Py.PStr (Winner season_info));
              metric "Runner-up" (Py.PStr (Runner_up season_info));
              metric "Player of Tournament"
                (Py.PStr (Player_of_Series season_info));
              metric "Purple Cap (Best Bowler)"
                (Py.PStr (Purple_Cap season_info));
              metric "Emerging Player"
                (Py.PStr (Emerging_Player season_info))]
    | [] => None
    end
  else Some [].

(** *** The page from its start to the season winners (lines 13-397) *)

Inductive crash :=
| database_error (e : Script.exn)
| index_error.

(** How the page ends: it ran through, [st.stop()] halted it, an exception
    nobody caught ended it, or a statement outside the model was sent. *)
Inductive fate :=
| Completed
| Halted
| Crashed (c : crash)
| Unmodelled.

Definition Run : Type := (list PageEvent * fate)%type.

(** One part after another: the second runs when the first ran through. *)
Definition then_ (a b : Run) : Run :=
  match snd a with
  | Completed => ((fst a ++ fst b)%list, snd b)
  | _ => a
  end.

Definition of_page (m : Page unit) : Run :=
  (map Within (fst m),
   match snd m with
   | Script.Done _ => Completed
   | Script.Stop => Halted
   | Script.Raise e => Crashed (database_error e)
   | Script.Mangled => Unmodelled
   end).

Definition drawn (ws : list Widget) : Run := (map shown ws, Completed).

(** The container of lines 336-397. *)
Definition season_container (pick_season : list Z -> Z) : Run :=
  then_ (drawn [header "🏆 Season-by-Season Winners"])
    match season_section season_data
            (pick_season (season_options season_data)) with
    | Some metrics => drawn metrics
    | None => ([], Crashed index_error)
    end.

(** What the user picks in the selectboxes of these lines. *)
Record Choices := {
  pick_batsman : list text -> text;
  pick_team : list text -> text;
  pick_bowler : list text -> text;
  pick_season : list Z -> Z
}.

(** Lines 13-397 in the order the script runs them.  Columns, tabs and
    containers only place what is drawn and leave no event. *)
Definition dashboard (d : Disk) (season_df : list (text * Z))
  (ui : Choices) : Run :=
  match setup_database d with
  | (errors, None) => (map shown errors, Halted)
  | (_, Some (db, info)) =>
      then_ ([Title "🏏 Indian Premier League (IPL) Analysis";
              shown (write "A dashboard to explore IPL match data using SQL queries.")],
             Completed)
     (then_ (tab1 info season_df, Completed)
     (then_ (of_page (tab2 db (pick_batsman ui)))
     (then_ (of_page (tab3 db (pick_team ui)))
     (then_ (of_page (tab4 db (pick_bowler ui)))
            (season_container (pick_season ui))))))
  end.

(** *** Reading a page, continued *)

(** The data of every bar chart drawn. *)
Definition bars_of (log : list Event) : list (list (text * Z)) :=
  flat_map (fun e => match e with
                     | Drew (bar_chart data) => [data]
                     | _ => []
                     end) log.

(** The options of the team and bowler selectboxes. *)
Definition teams (db : Database) : list text :=
  distinct_sorted (map team1 (matches db)).

Definition bowlers (db : Database) : list text :=
  distinct_sorted (map bowler (deliveries db)).

(** A selectbox value the sections can take: none, or a name that the
    f-strings splice as its own SQL literal. *)
Definition spliceable (sel : text) : Prop :=
  match sel with
  | Some name => plain name = true
  | None => True
  end.

End Dashboard.

(* ===================================================================== *)
(** ** Lemmas on the SQL layer *)
(* ===================================================================== *)

Import Sql App Plain Sample.

Section SqlFacts.

Lemma count_star_where {R} (p : R -> Sql.tri) (rows : list R) :
  count_star (where_ p rows) = count_if (fun r => holds (p r)) rows.
Proof. reflexivity. Qed.

Lemma count_if_ext {R} (p q : R -> bool) (rows : list R) :
  (forall r, p r = q r) -> count_if p rows = count_if q rows.
Proof.
  intros E. unfold count_if. now rewrite (filter_ext _ _ E).
Qed.

Lemma count_if_nonneg {R} (p : R -> bool) (rows : list R) :
  0 <= count_if p rows.
Proof. unfold count_if. lia. Qed.

Lemma count_if_cons {R} (p : R -> bool) (r : R) (rows : list R) :
  count_if p (r :: rows) = (if p r then 1 else 0) + count_if p rows.
Proof.
  unfold count_if. simpl. destruct (p r); simpl List.length; lia.
Qed.

Lemma count_if_filter {R} (p q : R -> bool) (rows : list R) :
  count_if p (filter q rows) = count_if (fun r => q r && p r) rows.
Proof.
  induction rows as [|r rows IH].
  - reflexivity.
  - simpl filter. destruct (q r) eqn:Q.
    + rewrite !count_if_cons, IH, Q. reflexivity.
    + rewrite count_if_cons, IH, Q. simpl. lia.
Qed.

Lemma holds_eq_text (c : Sql.text) (T : string) :
  holds (eq_text c T) = is_name T c.
Proof.
  destruct c as [s|]; simpl; [destruct (String.eqb s T)|]; reflexivity.
Qed.

Lemma holds_and3 (a b : Sql.tri) : holds (and3 a b) = holds a && holds b.
Proof. destruct a as [[|]|], b as [[|]|]; reflexivity. Qed.

Lemma holds_or3 (a b : Sql.tri) : holds (or3 a b) = holds a || holds b.
Proof. destruct a as [[|]|], b as [[|]|]; reflexivity. Qed.

Lemma holds_plays (T : string) (m : Match) :
  holds (plays T m) = participant T m.
Proof.
  unfold plays, participant. now rewrite holds_or3, !holds_eq_text.
Qed.

Lemma holds_pairing (A B : string) (m : Match) :
  holds (pairing A B m) = between A B m.
Proof.
  unfold pairing, between.
  now rewrite holds_or3, !holds_and3, !holds_eq_text.
Qed.

Lemma holds_no_winner (m : Match) :
  holds (or3 (@is_null string (winner m)) (eq_text (winner m) "No Result"))
  = no_winner m.
Proof.
  unfold no_winner. destruct (winner m) as [w|]; [|reflexivity].
  simpl. now destruct (String.eqb w "No Result").
Qed.

Lemma holds_credited (d : Delivery) : holds (credited d) = bowlers_wicket d.
Proof.
  unfold credited, bowlers_wicket, is_not_null, not_in.
  destruct (dismissal_kind d) as [k|]; [|reflexivity].
  now destruct (existsb (String.eqb k) not_bowlers).
Qed.

Lemma pairing_swap (A B : string) (m : Match) :
  pairing A B m = pairing B A m.
Proof.
  unfold pairing.
  destruct (eq_text (team1 m) A) as [[|]|], (eq_text (team2 m) B) as [[|]|],
    (eq_text (team1 m) B) as [[|]|], (eq_text (team2 m) A) as [[|]|];
    reflexivity.
Qed.

Lemma truthy_name (T : string) :
  T <> EmptyString -> Py.truthy (Py.PStr T) = true.
Proof.
  intros H. unfold Py.truthy.
  destruct (String.eqb_spec T EmptyString); [congruence | reflexivity].
Qed.

Lemma run_query_done (db : Database) (q : Query) (df : DataFrame q) :
  forallb plain (splices q) = true ->
  eval db q = inr df ->
  run_query db q = ([Ran q], Script.Done df).
Proof.
  intros P E. unfold run_query. now rewrite P, E.
Qed.

Lemma metrics_of_app (l1 l2 : list Event) :
  metrics_of (l1 ++ l2) = (metrics_of l1 ++ metrics_of l2)%list.
Proof. apply flat_map_app. Qed.

Lemma queries_of_app (l1 l2 : list Event) :
  queries_of (l1 ++ l2) = (queries_of l1 ++ queries_of l2)%list.
Proof. apply flat_map_app. Qed.

End SqlFacts.

(** Sends the statements of a section whose spliced names are plain. *)
Ltac send_queries :=
  unfold run_query; simpl splices; simpl forallb;
  repeat match goal with
    | H : plain _ = true |- _ => rewrite !H
    end;
  simpl andb; cbv iota; cbn [eval].

(* ===================================================================== *)
(** ** DISTINCT, GROUP BY and ORDER BY do what they are named after *)
(* ===================================================================== *)

Section GroupBy.

Lemma same_eq (a b : Sql.text) : same a b = true <-> a = b.
Proof.
  destruct a as [x|], b as [y|]; simpl; try (split; congruence).
  rewrite String.eqb_eq. split; congruence.
Qed.

Lemma same_neq (a b : Sql.text) : same a b = false <-> a <> b.
Proof.
  rewrite <- same_eq. destruct (same a b); split; congruence.
Qed.

Lemma text_eq_dec (a b : Sql.text) : {a = b} + {a <> b}.
Proof.
  destruct (same a b) eqn:S; [left; now apply same_eq | right; now apply same_neq].
Qed.

Lemma bump_keys (k0 k : Sql.text) (groups : list (Sql.text * Z)) :
  In k (map fst (bump k0 groups)) <-> k = k0 \/ In k (map fst groups).
Proof.
  induction groups as [|[k' m] rest IH]; simpl.
  - intuition congruence.
  - destruct (same k0 k') eqn:S; simpl.
    + apply same_eq in S. subst k'. intuition congruence.
    + rewrite IH. intuition congruence.
Qed.

Lemma bump_nodup (k0 : Sql.text) (groups : list (Sql.text * Z)) :
  NoDup (map fst groups) -> NoDup (map fst (bump k0 groups)).
Proof.
  induction groups as [|[k' m] rest IH]; simpl; intros N.
  - repeat constructor. intros [].
  - destruct (same k0 k') eqn:S; simpl; [exact N|].
    inversion N as [|? ? NI N']; subst.
    constructor; [|now apply IH].
    rewrite bump_keys. intros [->|I]; [|contradiction].
    apply same_neq in S. congruence.
Qed.

Lemma in_keys (k : Sql.text) (n : Z) (groups : list (Sql.text * Z)) :
  In (k, n) groups -> In k (map fst groups).
Proof. intros I. now apply (in_map fst) in I. Qed.

(** One more occurrence of [k0]: its count goes up by one, or it enters
    with count 1; the other groups stay. *)
Lemma bump_counts (k0 k : Sql.text) (n : Z) (groups : list (Sql.text * Z)) :
  NoDup (map fst groups) ->
  In (k, n) (bump k0 groups)
  <-> (k <> k0 /\ In (k, n) groups)
      \/ (k = k0 /\ In (k0, n - 1) groups)
      \/ (k = k0 /\ n = 1 /\ ~ In k0 (map fst groups)).
Proof.
  induction groups as [|[k' m] rest IH]; simpl; intros N.
  - split.
    + intros [[= <- <-]|[]]. right. right. tauto.
    + intros [[_ []]|[[_ []]|[-> [-> _]]]]. now left.
  - inversion N as [|? ? NI N']; subst.
    destruct (same k0 k') eqn:S; simpl.
    + apply same_eq in S. subst k'. split.
      * intros [[= <- <-]|I].
        -- right. left. split; [reflexivity|]. left. f_equal. lia.
        -- left. split; [|now right].
           intros ->. apply NI. eapply in_keys, I.
      * intros [[D [[= <- <-]|I]]|[[-> [[= E]|I]]|[-> [_ C]]]].
        -- congruence.
        -- now right.
        -- left. f_equal. lia.
        -- exfalso. apply NI. eapply in_keys, I.
        -- exfalso. apply C. now left.
    + apply same_neq in S. rewrite (IH N'). split.
      * intros [[= <- <-]|[[D I]|[[-> I]|[-> [-> C]]]]].
        -- left. split; [congruence | now left].
        -- left. split; [exact D | now right].
        -- right. left. split; [reflexivity | now right].
        -- right. right. repeat split. intros [E|I]; [congruence | contradiction].
      * intros [[D [[= <- <-]|I]]|[[-> [[= E]|I]]|[-> [-> C]]]].
        -- now left.
        -- right. left. now split.
        -- congruence.
        -- right. right. left. now split.
        -- right. right. right. repeat split. intros I. apply C. now right.
Qed.

Lemma occurrences_cons (k k0 : Sql.text) (keys : list Sql.text) :
  occurrences k (k0 :: keys)
  = (if same k k0 then 1 else 0) + occurrences k keys.
Proof. apply count_if_cons. Qed.

Lemma occurrences_absent (k : Sql.text) (keys : list Sql.text) :
  ~ In k keys -> occurrences k keys = 0.
Proof.
  induction keys as [|k0 keys IH]; intros NI; [reflexivity|].
  rewrite occurrences_cons, IH by (intros I; apply NI; now right).
  destruct (same k k0) eqn:S; [|reflexivity].
  apply same_eq in S. exfalso. apply NI. now left.
Qed.

(** GROUP BY: one group per key that occurs, with its number of rows. *)
Lemma group_count_spec (keys : list Sql.text) :
  NoDup (map fst (group_count keys))
  /\ forall k n, In (k, n) (group_count keys)
                 <-> In k keys /\ n = occurrences k keys.
Proof.
  induction keys as [|k0 keys [N IH]].
  - split; [constructor|]. simpl. tauto.
  - change (group_count (k0 :: keys)) with (bump k0 (group_count keys)).
    split; [now apply bump_nodup|].
    intros k n. rewrite (bump_counts k0 k n _ N), !IH, occurrences_cons.
    assert (K : In k0 (map fst (group_count keys)) <-> In k0 keys).
    { split.
      - intros I. apply in_map_iff in I as [[k' m] [E I]]. simpl in E.
        subst k'. now apply IH in I.
      - intros I. apply (in_keys k0 (occurrences k0 keys)). now apply IH. }
    rewrite K. simpl In. split.
    + intros [[D [I ->]]|[[-> [I E]]|[-> [-> NI]]]].
      * apply same_neq in D. rewrite D. split; [now right | lia].
      * rewrite (proj2 (same_eq k0 k0) eq_refl). split; [now left | lia].
      * rewrite (proj2 (same_eq k0 k0) eq_refl),
          (occurrences_absent k0 keys NI).
        split; [now left | reflexivity].
    + intros [I ->]. destruct (same k k0) eqn:S.
      * apply same_eq in S. subst k.
        destruct (in_dec text_eq_dec k0 keys) as [Y|NI].
        -- right. left. repeat split; [exact Y | lia].
        -- right. right. rewrite (occurrences_absent k0 keys NI).
           repeat split. exact NI.
      * apply same_neq in S. left. split; [exact S|].
        destruct I as [E|I]; [congruence|]. split; [exact I | lia].
Qed.

Lemma in_insert_desc (x g : Sql.text * Z) (l : list (Sql.text * Z)) :
  In x (insert_desc g l) <-> x = g \/ In x l.
Proof.
  induction l as [|h l IH]; simpl.
  - intuition congruence.
  - destruct (snd h <? snd g); simpl; rewrite ?IH; intuition congruence.
Qed.

(** ORDER BY count DESC keeps the rows *)
Lemma in_order_by (x : Sql.text * Z) (groups : list (Sql.text * Z)) :
  In x (order_by_count_desc groups) <-> In x groups.
Proof.
  induction groups as [|g groups IH]; simpl; [tauto|].
  rewrite in_insert_desc, IH. intuition congruence.
Qed.

Lemma sorted_insert_desc (g : Sql.text * Z) (l : list (Sql.text * Z)) :
  StronglySorted not_fewer l -> StronglySorted not_fewer (insert_desc g l).
Proof.
  induction 1 as [|h l SS IH F]; simpl.
  - repeat constructor.
  - destruct (Z.ltb_spec (snd h) (snd g)) as [L|G].
    + constructor; [now constructor|].
      constructor; [unfold not_fewer; lia|].
      eapply Forall_impl; [|exact F]. unfold not_fewer. intros; lia.
    + constructor; [exact IH|].
      apply Forall_forall. intros y Y.
      apply in_insert_desc in Y as [->|Y]; [exact G|].
      now apply (proj1 (Forall_forall _ _) F).
Qed.

(** and lists them with the counts descending. *)
Lemma sorted_order_by (groups : list (Sql.text * Z)) :
  StronglySorted not_fewer (order_by_count_desc groups).
Proof.
  induction groups as [|g groups IH]; simpl.
  - constructor.
  - now apply sorted_insert_desc.
Qed.

End GroupBy.

(* ===================================================================== *)
(** ** ORDER BY count DESC with LIMIT: the largest groups *)
(* ===================================================================== *)

Section TopN.

Lemma insert_desc_perm (g : Sql.text * Z) (l : list (Sql.text * Z)) :
  Permutation (insert_desc g l) (g :: l).
Proof.
  induction l as [|h l IH]; simpl.
  - apply Permutation_refl.
  - destruct (snd h <? snd g); [apply Permutation_refl|].
    eapply Permutation_trans; [apply perm_skip, IH | apply perm_swap].
Qed.

Lemma order_by_perm (groups : list (Sql.text * Z)) :
  Permutation (order_by_count_desc groups) groups.
Proof.
  induction groups as [|g groups IH]; simpl.
  - apply Permutation_refl.
  - eapply Permutation_trans; [apply insert_desc_perm | now apply perm_skip].
Qed.

Lemma order_by_keys_nodup (groups : list (Sql.text * Z)) :
  NoDup (map fst groups) -> NoDup (map fst (order_by_count_desc groups)).
Proof.
  intros N. eapply Permutation_NoDup; [|exact N].
  apply Permutation_map, Permutation_sym, order_by_perm.
Qed.

Lemma order_by_nil (groups : list (Sql.text * Z)) :
  order_by_count_desc groups = [] <-> groups = [].
Proof.
  split; [|now intros ->].
  intros E. pose proof (order_by_perm groups) as P. rewrite E in P.
  now apply Permutation_nil in P.
Qed.

Lemma group_count_nil (keys : list Sql.text) :
  group_count keys = [] <-> keys = [].
Proof.
  split; [|now intros ->].
  destruct keys as [|k keys]; [reflexivity|].
  change (group_count (k :: keys)) with (bump k (group_count keys)).
  destruct (group_count keys) as [|[k' n] rest]; simpl; [discriminate|].
  destruct (same k k'); discriminate.
Qed.

Lemma sorted_app_split {A} (R : A -> A -> Prop) (a b : list A) :
  StronglySorted R (a ++ b) ->
  forall x y, In x a -> In y b -> R x y.
Proof.
  induction a as [|h a IH]; simpl; intros S x y X Y; [contradiction|].
  inversion S as [|? ? S' F]; subst.
  destruct X as [->|X].
  - apply (proj1 (Forall_forall _ _) F). apply in_or_app. now right.
  - now apply IH.
Qed.

Lemma in_firstn {A} (n : nat) (l : list A) (x : A) :
  In x (firstn n l) -> In x l.
Proof.
  intros I. rewrite <- (firstn_skipn n l). apply in_or_app. now left.
Qed.

Lemma sorted_firstn {A} (R : A -> A -> Prop) (n : nat) (l : list A) :
  StronglySorted R l -> StronglySorted R (firstn n l).
Proof.
  intros S. revert n. induction S as [|h l S IH F]; intros [|n]; simpl;
    try constructor.
  - apply IH.
  - apply Forall_forall. intros y Y.
    apply (proj1 (Forall_forall _ _) F). eapply in_firstn, Y.
Qed.

Lemma nodup_firstn {A} (n : nat) (l : list A) :
  NoDup l -> NoDup (firstn n l).
Proof.
  intros N. revert n. induction N as [|h l NI N IH]; intros [|n]; simpl;
    try constructor.
  - intros I. apply NI. eapply in_firstn, I.
  - apply IH.
Qed.

Lemma occurrences_positive (k : Sql.text) (keys : list Sql.text) :
  In k keys -> 1 <= occurrences k keys.
Proof.
  induction keys as [|k0 keys IH]; [intros []|].
  rewrite occurrences_cons. intros [->|I].
  - rewrite (proj2 (same_eq k k) eq_refl).
    pose proof (count_if_nonneg (same k) keys). unfold occurrences. lia.
  - specialize (IH I). destruct (same k k0); lia.
Qed.

(** The first [n] groups by descending count: at most [n] rows, no key
    twice, each with its number of occurrences, in descending order, and no
    key that was left out occurs more often than one that was kept. *)
Lemma top_groups (n : nat) (keys : list Sql.text) :
  let top := limit n (order_by_count_desc (group_count keys)) in
  (List.length top <= n)%nat
  /\ StronglySorted not_fewer top
  /\ NoDup (map fst top)
  /\ (forall k c, In (k, c) top ->
        In k keys /\ c = occurrences k keys /\ 1 <= c)
  /\ (forall k c k', In (k, c) top -> In k' keys ->
        In (k', occurrences k' keys) top \/ occurrences k' keys <= c).
Proof.
  intros top. unfold top, limit.
  set (all := order_by_count_desc (group_count keys)).
  assert (A : forall k c, In (k, c) all
                          <-> In k keys /\ c = occurrences k keys).
  { intros k c. unfold all.
    now rewrite in_order_by, (proj2 (group_count_spec keys)). }
  repeat split.
  - apply firstn_le_length.
  - apply sorted_firstn, sorted_order_by.
  - rewrite <- firstn_map. apply nodup_firstn, order_by_keys_nodup.
    apply group_count_spec.
  - apply in_firstn, A in H. tauto.
  - apply in_firstn, A in H. tauto.
  - apply in_firstn, A in H. destruct H as [I ->].
    now apply occurrences_positive.
  - intros k c k' I I'.
    assert (L : In (k', occurrences k' keys) all) by (apply A; tauto).
    rewrite <- (firstn_skipn n all) in L.
    apply in_app_or in L as [L|L]; [now left | right].
    pose proof (sorted_order_by (group_count keys)) as S. fold all in S.
    rewrite <- (firstn_skipn n all) in S.
    exact (sorted_app_split _ _ _ S _ _ I L).
Qed.

End TopN.

(* ===================================================================== *)
(** ** Team tab: wins, losses and no-results add up *)
(* ===================================================================== *)

Section TeamTab.



(** The subtraction is not guarded: a team recorded as the winner of a match
    it did not play in gets a negative number of losses. *)
Example losses_can_be_negative :
  metrics_of (Script.log (team_section stray_winner (Some "A")))
  = [("Total Matches", Py.PInt 1); ("Wins", Py.PInt 2);
     ("Losses", Py.PInt (-1)); ("No Result", Py.PInt 0)].
Proof. reflexivity. Qed.


End TeamTab.

(* ===================================================================== *)
(** ** Head-to-head *)
(* ===================================================================== *)

Section HeadToHead.

Variable db : Database.

Lemma won_by_disjoint (A B : string) (m : Match) :
  A <> B -> won_by A m = true -> won_by B m = false.
Proof.
  unfold won_by, is_name. intros D.
  destruct (winner m) as [w|]; [|discriminate].
  destruct (String.eqb_spec w A), (String.eqb_spec w B);
    congruence.
Qed.

(** Every row with [p] is won by [A], won by [B], or won by neither. *)
Lemma count_if_three_ways (A B : string) (p : Match -> bool)
  (rows : list Match) :
  A <> B ->
  count_if p rows
  = count_if (fun m => won_by A m && p m) rows
    + count_if (fun m => won_by B m && p m) rows
    + count_if (fun m => p m && negb (won_by A m) && negb (won_by B m)) rows.
Proof.
  intros D. induction rows as [|m rows IH]; [reflexivity|].
  rewrite !count_if_cons, IH.
  pose proof (won_by_disjoint A B m D) as X.
  destruct (p m), (won_by A m), (won_by B m); cbn [andb negb];
    solve [lia | specialize (X eq_refl); discriminate].
Qed.


(** C8. With the same team in both selectboxes the section draws the
    warning and nothing else: no statement is sent, no metric is shown. *)
Theorem h2h_same_team_guard (team : Sql.text) :
  h2h_section db team team
  = ([Drew (warning
              "Please select two different teams for Head-to-Head analysis.")],
     Script.Done tt)
  /\ queries_of (Script.log (h2h_section db team team)) = []
  /\ metrics_of (Script.log (h2h_section db team team)) = [].
Proof.
  assert (S : same team team = true)
    by (destruct team; simpl; [apply String.eqb_refl | reflexivity]).
  assert (E : h2h_section db team team
              = ([Drew (warning
                   "Please select two different teams for Head-to-Head analysis.")],
                 Script.Done tt)).
  { unfold h2h_section. rewrite S. simpl negb. now rewrite andb_false_r. }
  rewrite E. repeat split.
Qed.


End HeadToHead.


(** The scenario of two matches between A and B, one won by A and one
    without a winner. *)
Example h2h_one_win_one_abandoned :
  let db := {| matches := [fixture "A" "B" (Some "A"); fixture "B" "A" None];
               deliveries := []; batter_label := "batter" |} in
  metrics_of (Script.log (h2h_section db (Some "A") (Some "B")))
  = [("Total H2H Matches", Py.PInt 2); ("A Wins", Py.PInt 1);
     ("B Wins", Py.PInt 0); ("No Result", Py.PInt 1)].
Proof. reflexivity. Qed.

(** A match between A and B recorded with a third team as its winner is
    shown under No Result. *)
Example h2h_third_team_winner :
  let db := {| matches := [fixture "A" "B" (Some "C")];
               deliveries := []; batter_label := "batter" |} in
  metrics_of (Script.log (h2h_section db (Some "A") (Some "B")))
  = [("Total H2H Matches", Py.PInt 1); ("A Wins", Py.PInt 0);
     ("B Wins", Py.PInt 0); ("No Result", Py.PInt 1)].
Proof. reflexivity. Qed.

(* ===================================================================== *)
(** ** Bowler tab: wickets, their breakdown, and overs *)
(* ===================================================================== *)

Section BowlerTab.

Lemma total_bump (k : Sql.text) (groups : list (Sql.text * Z)) :
  total (map snd (bump k groups)) = total (map snd groups) + 1.
Proof.
  induction groups as [|[k' n] rest IH]; simpl.
  - reflexivity.
  - destruct (same k k'); simpl; unfold total in *; simpl in *; lia.
Qed.

Lemma total_group_count (keys : list Sql.text) :
  total (map snd (group_count keys)) = Z.of_nat (List.length keys).
Proof.
  induction keys as [|k keys IH].
  - reflexivity.
  - change (group_count (k :: keys)) with (bump k (group_count keys)).
    rewrite total_bump, IH. simpl List.length. lia.
Qed.

Lemma total_insert_desc (g : Sql.text * Z) (l : list (Sql.text * Z)) :
  total (map snd (insert_desc g l)) = snd g + total (map snd l).
Proof.
  induction l as [|h l IH]; simpl.
  - reflexivity.
  - destruct (snd h <? snd g); simpl; unfold total in *; simpl in *; lia.
Qed.

Lemma total_order_by (groups : list (Sql.text * Z)) :
  total (map snd (order_by_count_desc groups)) = total (map snd groups).
Proof.
  induction groups as [|g groups IH].
  - reflexivity.
  - change (order_by_count_desc (g :: groups))
      with (insert_desc g (order_by_count_desc groups)).
    rewrite total_insert_desc, IH. reflexivity.
Qed.

(** [COUNT(CASE WHEN c THEN 1 ELSE NULL END)] counts the rows with [c]. *)
Lemma count_case_when {R} (c : R -> Sql.tri) (rows : list R) :
  count (fun r => case_when (c r) (Some 1) None) rows
  = count_if (fun r => holds (c r)) rows.
Proof.
  unfold count, count_if. f_equal. f_equal. apply filter_ext.
  intros r. unfold case_when. now destruct (holds (c r)).
Qed.


Lemma occurrences_map {R} (key : R -> Sql.text) (k : Sql.text)
  (rows : list R) :
  occurrences k (map key rows) = count_if (fun r => same k (key r)) rows.
Proof.
  induction rows as [|r rows IH]; [reflexivity|].
  simpl map. now rewrite occurrences_cons, count_if_cons, IH.
Qed.

(** Each row of the breakdown is a credited kind that X took a wicket
    with, next to the number of X's deliveries with that kind. *)
Lemma wicket_types_per_kind (db : Database) (X : string)
  (breakdown : list (Sql.text * Z)) (kind : Sql.text) (n : Z) :
  eval db (wicket_types_query X) = inr breakdown ->
  In (kind, n) breakdown
  <-> (exists d, In d (deliveries db)
                 /\ is_name X (bowler d) && bowlers_wicket d = true
                 /\ dismissal_kind d = kind)
      /\ n = count_if (fun d => (is_name X (bowler d) && bowlers_wicket d)
                                && same kind (dismissal_kind d))
                (deliveries db).
Proof.
  cbn [eval]. intros [= <-].
  assert (P : forall d,
             holds (and3 (and3 (eq_text (bowler d) X)
                               (is_not_null (dismissal_kind d)))
                         (not_in (dismissal_kind d) not_bowlers))
             = is_name X (bowler d) && bowlers_wicket d).
  { intros d.
    rewrite holds_and3, holds_and3, holds_eq_text, <- andb_assoc,
      <- holds_and3.
    exact (f_equal (andb _) (holds_credited d)). }
  rewrite in_order_by, (proj2 (group_count_spec _)), occurrences_map.
  unfold where_. rewrite count_if_filter.
  rewrite (count_if_ext _ (fun d => (is_name X (bowler d) && bowlers_wicket d)
                                    && same kind (dismissal_kind d)))
    by (intros d; cbv beta; now rewrite P).
  rewrite in_map_iff.
  split; intros [[d H] E]; (split; [exists d | exact E]).
  - destruct H as [K I]. apply filter_In in I as [I Q].
    rewrite P in Q. tauto.
  - destruct H as [I [Q K]]. split; [exact K|].
    apply filter_In. rewrite P. tauto.
Qed.

End BowlerTab.


(** The scenario of three balls by X, two caught and one run out. *)
Example two_caught_one_run_out :
  let db := {| matches := [];
               deliveries := [ball "X" "P" 0 (Some "caught");
                              ball "X" "P" 0 (Some "run out");
                              ball "X" "Q" 0 (Some "caught")];
               batter_label := "batter" |} in
  eval db (bowler_stats_query "X") = inr (2, 3)
  /\ eval db (wicket_types_query "X") = inr [(Some "caught", 2)].
Proof. split; reflexivity. Qed.

Section Overs.

Lemma split_at_dot_app (a b : string) :
  no_dot a = true -> split_at_dot (a ++ "." ++ b) = Some (a, b).
Proof.
  change ("." ++ b) with (String "."%char b).
  induction a as [|c a IH]; simpl; intros H.
  - reflexivity.
  - apply andb_true_iff in H as [C N].
    apply negb_true_iff in C. rewrite C, (IH N). reflexivity.
Qed.

Lemma no_dot_digits (d : Decimal.uint) :
  no_dot (NilEmpty.string_of_uint d) = true.
Proof. induction d; simpl; auto. Qed.

Lemma no_dot_str (z : Z) : no_dot (Py.str z) = true.
Proof.
  unfold Py.str, NilZero.string_of_int, NilZero.string_of_uint.
  destruct (Z.to_int z) as [d|d]; destruct d; simpl;
    auto using no_dot_digits.
Qed.

Lemma to_int_proper (z : Z) :
  Z.to_int z <> Decimal.Pos Decimal.Nil /\ Z.to_int z <> Decimal.Neg Decimal.Nil.
Proof.
  destruct z as [|p|p]; simpl; split; try discriminate;
    intros [= E]; now apply (DecimalPos.Unsigned.to_uint_nonnil p).
Qed.

(** A printed integer reads back as itself. *)
Lemma read_int_str (z : Z) : read_int (Py.str z) = Some z.
Proof.
  unfold read_int, Py.str.
  destruct (to_int_proper z) as [P N].
  rewrite (NilZero.isi _ P N). simpl. now rewrite DecimalZ.of_to.
Qed.

(** C4. For a bowler with [total_balls >= 0] balls the overs figure is the
    numeral of [total_balls // 6], a full stop, and the numeral of
    [total_balls % 6]; read back, it gives those two numbers, and six times
    the first plus the second is [total_balls] again. *)
Theorem overs_reproduce_balls (total_balls : Z) :
  0 <= total_balls ->
  overs_bowled_str total_balls
  = Py.str (total_balls / 6) ++ "." ++ Py.str (total_balls mod 6)
  /\ read_overs (overs_bowled_str total_balls)
     = Some (total_balls / 6, total_balls mod 6)
  /\ balls_of_overs (overs_bowled_str total_balls) = Some total_balls
  /\ total_balls = 6 * (total_balls / 6) + total_balls mod 6
  /\ 0 <= total_balls / 6
  /\ 0 <= total_balls mod 6 < 6.
Proof.
  intros NN.
  assert (R : read_overs (overs_bowled_str total_balls)
              = Some (total_balls / 6, total_balls mod 6)).
  { unfold read_overs, overs_bowled_str.
    rewrite (split_at_dot_app _ _ (no_dot_str _)), !read_int_str.
    reflexivity. }
  pose proof (Z.div_mod total_balls 6 ltac:(lia)) as DM.
  pose proof (Z.mod_pos_bound total_balls 6 ltac:(lia)) as MB.
  pose proof (Z.div_pos total_balls 6 NN ltac:(lia)) as DP.
  repeat split; try lia; try exact R.
  unfold balls_of_overs. rewrite R. cbn [option_map fst snd]. f_equal. lia.
Qed.

End Overs.

Lemma overs_reproduce_balls_witness :
  overs_bowled_str 37 = Py.str (37 / 6) ++ "." ++ Py.str (37 mod 6)
  /\ read_overs (overs_bowled_str 37) = Some (37 / 6, 37 mod 6)
  /\ balls_of_overs (overs_bowled_str 37) = Some 37
  /\ 37 = 6 * (37 / 6) + 37 mod 6
  /\ 0 <= 37 / 6
  /\ 0 <= 37 mod 6 < 6.
Proof. exact (overs_reproduce_balls 37 ltac:(lia)). Defined.

Example overs_of_37_balls : overs_bowled_str 37 = "6.1".
Proof. reflexivity. Qed.

Example overs_of_no_balls : overs_bowled_str 0 = "0.0".
Proof. reflexivity. Qed.

(* ===================================================================== *)
(** ** Batsman tab: the striker column and the boundary counts *)
(* ===================================================================== *)

Section BatsmanTab.

Variable db : Database.

(** [SUM(CASE WHEN c THEN 1 ELSE 0 END)] adds up to the rows with [c]. *)
Lemma fold_case_when {R} (c : R -> Sql.tri) (rows : list R) :
  fold_right (fun r acc => case_when (c r) 1 0 + acc) 0 rows
  = count_if (fun r => holds (c r)) rows.
Proof.
  induction rows as [|r rows IH]; [reflexivity|].
  rewrite count_if_cons. cbn [fold_right]. rewrite IH.
  unfold case_when. reflexivity.
Qed.

(** [int(x) if x else 0] on such a sum is the count, NULL included. *)
Lemma int_or_zero_sum {R} (c : R -> Sql.tri) (rows : list R) :
  Py.int_or_zero (Py.of_int (sum (fun r => case_when (c r) 1 0) rows))
  = count_if (fun r => holds (c r)) rows.
Proof.
  destruct rows as [|r rows]; [reflexivity|].
  unfold sum. rewrite fold_case_when.
  unfold Py.of_int, Py.int_or_zero, Py.truthy.
  destruct (Z.eqb_spec (count_if (fun r0 => holds (c r0)) (r :: rows)) 0)
    as [E|E]; simpl; congruence.
Qed.

(** What the lookup of lines 117-129 does, by the header of the column. *)
Lemma batsmen_lookup_cases :
  batsmen_lookup db
  = if String.eqb "batter" (batter_label db)
    then ([Ran (batsmen_query "batter")], Script.Done ("batter", batsmen db))
    else if String.eqb "batsman" (batter_label db)
    then ([Ran (batsmen_query "batter"); Ran (batsmen_query "batsman")],
          Script.Done ("batsman", batsmen db))
    else ([Ran (batsmen_query "batter"); Ran (batsmen_query "batsman");
           Drew (error column_error)],
          Script.Stop).
Proof.
  unfold batsmen_lookup, run_query. cbn [splices forallb eval].
  destruct (String.eqb "batter" (batter_label db)); [reflexivity|].
  destruct (String.eqb "batsman" (batter_label db)); reflexivity.
Qed.

(** The statements a boundary section sends name the column it was given. *)
Lemma boundary_section_queries (col : string) (sel : Sql.text) (q : Query) :
  In q (queries_of (Script.log (boundary_section db col sel))) ->
  exists name, q = boundary_query col name.
Proof.
  unfold boundary_section, if_selected.
  destruct sel as [name|]; [|intros []].
  destruct (Py.truthy (Py.PStr name)); [|intros []].
  unfold run_query.
  destruct (forallb plain (splices (boundary_query col name)));
    [|intros [<-|[]]; now exists name].
  destruct (eval db (boundary_query col name)) as [e|df];
    [intros [<-|[]]; now exists name|].
  cbn [Script.bind st Script.emit fst snd Script.log].
  destruct (_ || _); (intros [<-|[]]; now exists name).
Qed.


Lemma holds_eq_int (d : Delivery) (runs : Z) :
  holds (eq_int (batsman_runs d) runs) = scored runs d.
Proof.
  unfold scored. destruct (batsman_runs d) as [r|]; simpl;
    [destruct (r =? runs)|]; reflexivity.
Qed.

(** The section of lines 133-165, given the label of the table. *)
Lemma boundary_section_metrics (col T : string) :
  String.eqb col (batter_label db) = true ->
  T <> EmptyString -> plain T = true ->
  Script.result (boundary_section db col (Some T)) = Script.Done tt
  /\ metrics_of (Script.log (boundary_section db col (Some T)))
     = [("Total Fours (4s)",
         Py.PInt (count_if (fun d => is_name T (batter d) && scored 4 d)
                    (deliveries db)));
        ("Total Sixes (6s)",
         Py.PInt (count_if (fun d => is_name T (batter d) && scored 6 d)
                    (deliveries db)))].
Proof.
  intros C NE PL.
  unfold boundary_section, if_selected. rewrite (truthy_name T NE).
  send_queries. rewrite C.
  cbn [Script.bind st Script.emit fst snd].
  rewrite !int_or_zero_sum. unfold where_. rewrite !count_if_filter.
  assert (P : forall runs,
             count_if (fun d => holds (eq_text (batter d) T)
                                && holds (eq_int (batsman_runs d) runs))
               (deliveries db)
             = count_if (fun d => is_name T (batter d) && scored runs d)
                 (deliveries db))
    by (intros runs; apply count_if_ext; intros d;
        now rewrite holds_eq_text, holds_eq_int).
  rewrite !P.
  destruct (_ || _); split; reflexivity.
Qed.


End BatsmanTab.



(** C7, at a batter with fours and no six: the batsman chart is drawn
    from [[fours, sixes]] as they are, so the Sixes slice is passed to the
    chart with size 0. *)
Theorem batsman_pie_keeps_zero_slice :
  pies_of (Script.log (boundary_section league "batter" (Some "P")))
  = [[(Some "Fours", Py.PInt 2); (Some "Sixes", Py.PInt 0)]].
Proof. reflexivity. Qed.

(* ===================================================================== *)
(** ** The team selector *)
(* ===================================================================== *)

Section Selector.

Lemma string_ltb_lts (x y : string) :
  String.leb y x = false <-> String_as_OT.lt x y.
Proof.
  rewrite <- String_as_OT.cmp_lt. unfold String_as_OT.cmp, String.leb.
  rewrite (String.compare_antisym x y).
  destruct (String.compare y x); simpl; split; congruence.
Qed.

Lemma before_irrefl (a : Sql.text) : ~ before a a.
Proof.
  unfold before, lt_text. destruct a as [x|]; simpl; [|discriminate].
  rewrite negb_true_iff, string_ltb_lts.
  intros H. now apply (String_as_OT.lt_not_eq x x H).
Qed.

Lemma before_trans (a b c : Sql.text) : before a b -> before b c -> before a c.
Proof.
  unfold before, lt_text.
  destruct a as [x|], b as [y|], c as [z|]; simpl; try congruence.
  rewrite !negb_true_iff, !string_ltb_lts. apply String_as_OT.lt_trans.
Qed.

(** Not the same and not after: before. *)
Lemma le_not_same_before (v x : Sql.text) :
  same v x = false -> le_text v x = true -> before v x.
Proof.
  unfold before, lt_text. intros S L. apply negb_true_iff.
  destruct (le_text x v) eqn:G; [|reflexivity].
  assert (v = x); [|apply same_eq in H; congruence].
  destruct v as [a|], x as [b|]; simpl in *; try congruence.
  f_equal. now apply String.leb_antisym.
Qed.

Lemma in_insert_distinct (v y : Sql.text) (l : list Sql.text) :
  In y (insert_distinct v l) <-> y = v \/ In y l.
Proof.
  induction l as [|x l IH]; simpl.
  - intuition congruence.
  - destruct (same v x) eqn:S.
    + apply same_eq in S. subst x. simpl. intuition congruence.
    + destruct (le_text v x); simpl; rewrite ?IH; intuition congruence.
Qed.

Lemma in_distinct_sorted (y : Sql.text) (vals : list Sql.text) :
  In y (distinct_sorted vals) <-> In y vals.
Proof.
  induction vals as [|v vals IH]; simpl; [tauto|].
  rewrite in_insert_distinct, IH. intuition congruence.
Qed.

Lemma sorted_insert_distinct (v : Sql.text) (l : list Sql.text) :
  StronglySorted before l -> StronglySorted before (insert_distinct v l).
Proof.
  induction 1 as [|x l SS IH F]; simpl.
  - repeat constructor.
  - destruct (same v x) eqn:S; [now constructor|].
    destruct (le_text v x) eqn:L.
    + pose proof (le_not_same_before v x S L) as B.
      constructor; [now constructor|].
      constructor; [exact B|].
      eapply Forall_impl; [|exact F]. intros y. now apply before_trans.
    + constructor; [exact IH|].
      apply Forall_forall. intros y Y.
      apply in_insert_distinct in Y as [->|Y].
      * unfold before, lt_text. now rewrite L.
      * now apply (proj1 (Forall_forall _ _) F).
Qed.

Lemma sorted_distinct_sorted (vals : list Sql.text) :
  StronglySorted before (distinct_sorted vals).
Proof.
  induction vals as [|v vals IH]; simpl.
  - constructor.
  - now apply sorted_insert_distinct.
Qed.

Lemma sorted_nodup (l : list Sql.text) : StronglySorted before l -> NoDup l.
Proof.
  induction 1 as [|x l SS IH F]; constructor; [|exact IH].
  intros I. apply (before_irrefl x).
  now apply (proj1 (Forall_forall _ _) F).
Qed.

(** X1. What the selector does hold: the values of the column [team1], each
    once, in ascending order. *)
Lemma teams_list_is_team1 (db : Database) :
  exists teams_list,
    run_query db teams_query = ([Ran teams_query], Script.Done teams_list)
    /\ StronglySorted before teams_list
    /\ NoDup teams_list
    /\ forall t, In t teams_list <-> In t (map team1 (matches db)).
Proof.
  exists (distinct_sorted (map team1 (matches db))).
  split; [reflexivity|].
  split; [apply sorted_distinct_sorted|].
  split; [apply sorted_nodup, sorted_distinct_sorted|].
  intros t. apply in_distinct_sorted.
Qed.

End Selector.

(** C9, at a table where B is only ever the second team: B takes part in a
    match and is not in the selector list. *)
Theorem teams_list_misses_second_team :
  let db := {| matches := [fixture "A" "B" (Some "A")];
               deliveries := []; batter_label := "batter" |} in
  run_query db teams_query = ([Ran teams_query], Script.Done [Some "A"])
  /\ (exists m, In m (matches db) /\ participant "B" m = true)
  /\ ~ In (Some "B") [Some "A"].
Proof.
  simpl. split; [reflexivity|]. split.
  - exists (fixture "A" "B" (Some "A")). split; [now left | reflexivity].
  - intros [H|[]]. discriminate H.
Qed.

(* ===================================================================== *)
(** ** Team tab: what else it keeps *)
(* ===================================================================== *)

Import Dashboard.

(** Opens [team_section] for a plain name and turns the three counting
    statements into plain counts. *)
Ltac open_team_section db T NE :=
  unfold team_section, if_selected; rewrite (truthy_name T NE);
  send_queries;
  rewrite !count_star_where;
  rewrite (count_if_ext _ _ (matches db) (holds_plays T));
  rewrite (count_if_ext (fun m => holds (eq_text (winner m) T)) (won_by T)
             (matches db))
    by (intros; apply holds_eq_text);
  rewrite (count_if_ext (fun m => holds (and3 (plays T m) _))
             (fun m => participant T m && no_winner m) (matches db))
    by (intros; now rewrite holds_and3, holds_plays, holds_no_winner).

Section TeamMore.

Variable db : Database.

Lemma count_if_positive {R} (p : R -> bool) (rows : list R) (r : R) :
  In r rows -> p r = true -> 1 <= count_if p rows.
Proof.
  induction rows as [|r0 rows IH]; [intros []|].
  rewrite count_if_cons. intros [->|I] P.
  - rewrite P. pose proof (count_if_nonneg p rows). lia.
  - specialize (IH I P). destruct (p r0); lia.
Qed.

Lemma count_if_zero {R} (p : R -> bool) (rows : list R) :
  count_if p rows = 0 <-> filter p rows = [].
Proof.
  unfold count_if. destruct (filter p rows); simpl; split;
    try reflexivity; try discriminate; lia.
Qed.

Lemma string_length_append (a b : string) :
  String.length (a ++ b) = (String.length a + String.length b)%nat.
Proof. induction a as [|c a IH]; simpl; [reflexivity | now rewrite IH]. Qed.

Lemma no_wins_note_differs (T : string) :
  T ++ " has not registered any wins." <> "No matches found for this team.".
Proof.
  intros E.
  destruct T as [|a [|b [|c T]]]; try discriminate E.
  apply (f_equal String.length) in E. simpl in E.
  rewrite string_length_append in E. simpl in E. lia.
Qed.

(** X4. A team picked from the selector has played: its total is at least
    one, so the tab never answers that no matches were found. *)
Theorem listed_team_has_matches (T : string) :
  In (Some T) (teams db) ->
  T <> EmptyString -> plain T = true ->
  In ("Total Matches",
      Py.PInt (count_if (participant T) (matches db)))
     (metrics_of (Script.log (team_section db (Some T))))
  /\ 1 <= count_if (participant T) (matches db)
  /\ ~ In (write "No matches found for this team.")
          (widgets_of (Script.log (team_section db (Some T)))).
Proof.
  intros L NE PL.
  assert (P : 1 <= count_if (participant T) (matches db)).
  { apply in_distinct_sorted, in_map_iff in L as [m [E I]].
    apply (count_if_positive _ _ m I).
    unfold participant, is_name. rewrite E, String.eqb_refl. reflexivity. }
  open_team_section db T NE.
  set (total_matches := count_if (participant T) (matches db)) in *.
  clearbody total_matches.
  generalize (count_if (won_by T) (matches db)) as wins.
  generalize (count_if (fun m => participant T m && no_winner m) (matches db))
    as no_result.
  intros no_result wins.
  generalize (limit 10 (order_by_count_desc (group_count (map venue
    (where_ (fun m : Match => eq_text (winner m) T) (matches db)))))).
  intros venues.
  cbn [Script.bind st Script.emit fst snd].
  set (kept := non_zero _). clearbody kept.
  destruct (Z.ltb_spec 0 total_matches) as [_|C]; [|lia].
  split; [|split; [exact P|]].
  - destruct kept, venues; simpl; tauto.
  - pose proof (no_wins_note_differs T) as D.
    destruct kept, venues; simpl;
      intros H; repeat destruct H as [H|H]; try discriminate H;
      try contradiction; injection H as H; now apply D.
Qed.

Lemma won_has_winner (T : string) (m : Match) :
  T <> "No Result" -> won_by T m = true -> no_winner m = false.
Proof.
  unfold won_by, is_name, no_winner. intros D.
  destruct (winner m) as [w|]; [|discriminate].
  intros E. apply String.eqb_eq in E. subst w.
  now apply String.eqb_neq.
Qed.

Lemma defeats_are_the_rest (T : string) (rows : list Match) :
  T <> "No Result" ->
  (forall m, In m rows -> won_by T m = true -> participant T m = true) ->
  count_if (participant T) rows - count_if (won_by T) rows
  - count_if (fun m => participant T m && no_winner m) rows
  = count_if (fun m => participant T m && negb (won_by T m)
                       && negb (no_winner m)) rows.
Proof.
  intros D. induction rows as [|m rows IH]; intros C; [reflexivity|].
  rewrite !count_if_cons.
  specialize (IH (fun m' I => C m' (or_intror I))).
  pose proof (C m (or_introl eq_refl)) as Cm.
  pose proof (won_has_winner T m D) as W.
  destruct (participant T m), (won_by T m), (no_winner m);
    cbn [andb negb]; try lia;
    solve [specialize (Cm eq_refl); discriminate
          | specialize (W eq_refl); discriminate].
Qed.


Lemma limit_nil {A} (n : nat) (l : list A) :
  limit (S n) l = [] <-> l = [].
Proof. destruct l; simpl; split; congruence. Qed.

Lemma map_nil {A B} (f : A -> B) (l : list A) : map f l = [] <-> l = [].
Proof. destruct l; simpl; split; congruence. Qed.



End TeamMore.

Lemma listed_team_has_matches_witness :
  1 <= count_if (participant "C") (matches league)
  /\ ~ In (write "No matches found for this team.")
          (widgets_of (Script.log (team_section league (Some "C")))).
Proof.
  exact (proj2 (listed_team_has_matches league "C"
                  ltac:(simpl; tauto) ltac:(discriminate)
                  ltac:(reflexivity))).
Defined.





(* ===================================================================== *)
(** ** Head-to-head: what else it keeps *)
(* ===================================================================== *)

(** Opens [h2h_section] for two different plain names and turns its three
    statements into plain counts. *)
Ltac open_h2h_section db A B NA NB D :=
  unfold h2h_section;
  rewrite (truthy_name A NA : Py.truthy (Py.of_text (Some A)) = true);
  rewrite (truthy_name B NB : Py.truthy (Py.of_text (Some B)) = true);
  rewrite (proj2 (same_neq (Some A) (Some B))
             (fun E => D (f_equal (fun t => match t with
                                            | Some s => s
                                            | None => A
                                            end) E)));
  simpl andb; cbv iota;
  send_queries;
  rewrite !count_star_where;
  rewrite (count_if_ext _ _ (matches db) (holds_pairing A B));
  rewrite (count_if_ext
             (fun m => holds (and3 (eq_text (winner m) A) (pairing A B m)))
             (fun m => won_by A m && between A B m) (matches db))
    by (intros; now rewrite holds_and3, holds_eq_text, holds_pairing);
  rewrite (count_if_ext
             (fun m => holds (and3 (eq_text (winner m) B) (pairing A B m)))
             (fun m => won_by B m && between A B m) (matches db))
    by (intros; now rewrite holds_and3, holds_eq_text, holds_pairing);
  cbn [Script.bind st Script.emit fst snd].

Section HeadToHeadMore.

Variable db : Database.

Lemma count_if_le {R} (p q : R -> bool) (rows : list R) :
  (forall r, p r = true -> q r = true) ->
  count_if p rows <= count_if q rows.
Proof.
  intros I. induction rows as [|r rows IH]; [reflexivity|].
  rewrite !count_if_cons. specialize (I r).
  destruct (p r), (q r);
    solve [lia | specialize (I eq_refl); discriminate].
Qed.



(** X16. With two different values of which one is no name (None or the
    empty text), the section draws nothing and sends nothing: neither the
    warning nor any figure. *)
Theorem h2h_needs_two_names (team_a team_b : Sql.text) :
  team_a <> team_b ->
  Py.truthy (Py.of_text team_a) = false
  \/ Py.truthy (Py.of_text team_b) = false ->
  h2h_section db team_a team_b = ([], Script.Done tt).
Proof.
  intros D F. unfold h2h_section.
  apply same_neq in D. rewrite D.
  destruct F as [F|F]; rewrite F; [|rewrite andb_false_r]; reflexivity.
Qed.


End HeadToHeadMore.



Lemma h2h_needs_two_names_witness :
  h2h_section league None (Some "B") = ([], Script.Done tt).
Proof.
  exact (h2h_needs_two_names league None (Some "B")
           ltac:(discriminate) ltac:(left; reflexivity)).
Defined.


(* ===================================================================== *)
(** ** Bowler and batsman tabs: what else they keep *)
(* ===================================================================== *)

Section PlayersMore.

Variable db : Database.

Lemma holds_wicket_row (X : string) (d : Delivery) :
  holds (and3 (and3 (eq_text (bowler d) X) (is_not_null (dismissal_kind d)))
              (not_in (dismissal_kind d) not_bowlers))
  = is_name X (bowler d) && bowlers_wicket d.
Proof.
  rewrite holds_and3, holds_and3, holds_eq_text, <- andb_assoc, <- holds_and3.
  exact (f_equal (andb _) (holds_credited d)).
Qed.

(** The rows the breakdown statement groups, and their number. *)
Lemma wicket_rows_count (X : string) :
  Z.of_nat (List.length
              (map dismissal_kind
                 (where_ (fun d =>
                            and3 (and3 (eq_text (bowler d) X)
                                       (is_not_null (dismissal_kind d)))
                                 (not_in (dismissal_kind d) not_bowlers))
                         (deliveries db))))
  = count_if (fun d => is_name X (bowler d) && bowlers_wicket d)
      (deliveries db).
Proof.
  rewrite length_map. apply count_if_ext, holds_wicket_row.
Qed.


Lemma combine_as_map {A B C} (f : A -> B) (g : A -> C) (l : list A) :
  combine (map f l) (map g l) = map (fun a => (f a, g a)) l.
Proof. induction l as [|a l IH]; simpl; [reflexivity | now rewrite IH]. Qed.


(** The overs figure read back as a number of balls. *)
Lemma balls_of_overs_str (total_balls : Z) :
  0 <= total_balls ->
  balls_of_overs (overs_bowled_str total_balls) = Some total_balls.
Proof.
  intros NN. unfold balls_of_overs, read_overs, overs_bowled_str.
  rewrite (split_at_dot_app _ _ (no_dot_str _)), !read_int_str.
  cbn [option_map fst snd]. f_equal.
  pose proof (Z.div_mod total_balls 6 ltac:(lia)). lia.
Qed.

(** X12. Two different numbers of balls never give the same overs figure. *)
Theorem overs_figure_is_injective (balls balls' : Z) :
  0 <= balls -> 0 <= balls' ->
  overs_bowled_str balls = overs_bowled_str balls' -> balls = balls'.
Proof.
  intros N N' E.
  pose proof (balls_of_overs_str balls N) as R.
  rewrite E, (balls_of_overs_str balls' N') in R. congruence.
Qed.


(** X2. The bowler selector holds the values of the column [bowler], each
    once, in ascending order. *)
Theorem bowler_list_is_bowlers :
  exists bowler_list,
    run_query db bowler_query = ([Ran bowler_query], Script.Done bowler_list)
    /\ StronglySorted before bowler_list
    /\ NoDup bowler_list
    /\ forall b, In b bowler_list <-> In b (map bowler (deliveries db)).
Proof.
  exists (distinct_sorted (map bowler (deliveries db))).
  split; [reflexivity|].
  split; [apply sorted_distinct_sorted|].
  split; [apply sorted_nodup, sorted_distinct_sorted|].
  intros b. apply in_distinct_sorted.
Qed.

(** X3. When the striker column is headed [batter] or [batsman], the
    batsman selector holds its values, each once, in ascending order, and
    the lookup reports the header it found. *)
Theorem batsmen_list_is_strikers :
  batter_label db = "batter" \/ batter_label db = "batsman" ->
  exists batsmen_list,
    Script.result (batsmen_lookup db)
    = Script.Done (batter_label db, batsmen_list)
    /\ StronglySorted before batsmen_list
    /\ NoDup batsmen_list
    /\ forall b, In b batsmen_list <-> In b (map batter (deliveries db)).
Proof.
  intros L. exists (batsmen db).
  split.
  - rewrite batsmen_lookup_cases.
    destruct L as [L|L]; rewrite L; reflexivity.
  - split; [apply sorted_distinct_sorted|].
    split; [apply sorted_nodup, sorted_distinct_sorted|].
    intros b. apply in_distinct_sorted.
Qed.

Lemma sum_case_when {R} (c : R -> Sql.tri) (rows : list R) :
  sum (fun r => case_when (c r) 1 0) rows
  = match rows with
    | [] => None
    | _ => Some (count_if (fun r => holds (c r)) rows)
    end.
Proof.
  destruct rows as [|r rows]; [reflexivity|].
  unfold sum. now rewrite fold_case_when.
Qed.


End PlayersMore.



Lemma overs_figure_is_injective_witness : 37 = 37.
Proof.
  exact (overs_figure_is_injective 37 37 ltac:(lia) ltac:(lia)
           ltac:(reflexivity)).
Defined.


Lemma batsmen_list_is_strikers_witness :
  exists batsmen_list,
    Script.result (batsmen_lookup league)
    = Script.Done (batter_label league, batsmen_list)
    /\ StronglySorted before batsmen_list
    /\ NoDup batsmen_list
    /\ forall b, In b batsmen_list <-> In b (map batter (deliveries league)).
Proof.
  exact (batsmen_list_is_strikers league ltac:(left; reflexivity)).
Defined.


(* ===================================================================== *)
(** ** Overview tab, season winners and the page as a whole *)
(* ===================================================================== *)

Section OverviewMore.

Variable info : list MatchInfo.

(** X18. The Player of the Match chart holds at most ten players, none
    twice and never the missing one, by descending number of awards; each
    number is the count of matches with that player of the match; and a
    player who is left out has no more awards than any player shown. *)
Theorem top_players_are_the_best :
  let awards p := count_if (fun r => same p (player_of_match r)) info in
  (List.length (pom_df info) <= 10)%nat
  /\ StronglySorted not_fewer (pom_df info)
  /\ NoDup (map fst (pom_df info))
  /\ (forall p c, In (p, c) (pom_df info) ->
        p <> None /\ c = awards p /\ 1 <= c)
  /\ (forall p c r, In (p, c) (pom_df info) -> In r info ->
        player_of_match r <> None ->
        In (player_of_match r, awards (player_of_match r)) (pom_df info)
        \/ awards (player_of_match r) <= c).
Proof.
  intros awards. unfold pom_df.
  set (named := where_ (fun r => is_not_null (player_of_match r)) info).
  assert (M : forall r, In r named
                        <-> In r info /\ player_of_match r <> None).
  { intros r. unfold named, where_. rewrite filter_In.
    destruct (player_of_match r); simpl; intuition congruence. }
  assert (O : forall p, p <> None ->
                        occurrences p (map player_of_match named) = awards p).
  { intros p NN. rewrite occurrences_map. unfold named, where_, awards.
    rewrite count_if_filter. apply count_if_ext. intros r.
    destruct p as [p|]; [|congruence].
    destruct (player_of_match r); reflexivity. }
  destruct (top_groups 10 (map player_of_match named)) as [L [S [N [I B]]]].
  split; [exact L|]. split; [exact S|]. split; [exact N|]. split.
  - intros p c H. apply I in H as [K [-> P]].
    apply in_map_iff in K as [r [E K]]. apply M in K as [_ K].
    rewrite E in K. split; [exact K|]. now rewrite <- (O p K).
  - intros p c r H R NN. rewrite <- (O _ NN). apply (B p c _ H).
    apply in_map, M. tauto.
Qed.

Lemma present_length (vals : list Sql.int) :
  (List.length (flat_map (fun v => match v with
                                   | Some z => [z]
                                   | None => []
                                   end) vals) <= List.length vals)%nat
  /\ (List.length (flat_map (fun v => match v with
                                      | Some z => [z]
                                      | None => []
                                      end) vals) = List.length vals
      <-> ~ In None vals).
Proof.
  induction vals as [|[z|] vals [L E]]; simpl.
  - split; [lia | tauto].
  - split; [lia|]. split.
    + intros H [C|C]; [discriminate C|]. apply E; [lia | exact C].
    + intros H. f_equal. apply E. tauto.
  - split; [lia|]. split; [lia | tauto].
Qed.

Lemma present_some (vals : list Sql.int) :
  ~ In None vals ->
  vals = map Some (flat_map (fun v => match v with
                                      | Some z => [z]
                                      | None => []
                                      end) vals).
Proof.
  induction vals as [|[z|] vals IH]; simpl; intros H.
  - reflexivity.
  - f_equal. apply IH. tauto.
  - exfalso. tauto.
Qed.

Lemma nodup_map_some (l : list Z) : NoDup l -> NoDup (map Some l).
Proof.
  induction 1 as [|x l NI N IH]; simpl; constructor; [|exact IH].
  intros I. apply in_map_iff in I as [y [[= ->] I]]. contradiction.
Qed.

Lemma nodup_length (l : list Z) :
  (List.length (nodup Z.eq_dec l) <= List.length l)%nat
  /\ (List.length (nodup Z.eq_dec l) = List.length l <-> NoDup l).
Proof.
  induction l as [|x l [L E]]; simpl.
  - split; [lia|]. split; [constructor | reflexivity].
  - destruct (in_dec Z.eq_dec x l) as [I|NI]; simpl.
    + split; [lia|]. split; [lia|].
      intros N. inversion N. contradiction.
    + split; [lia|]. split.
      * intros H. constructor; [exact NI | apply E; lia].
      * intros N. inversion N. f_equal. now apply E.
Qed.

(** X19. The total shown in the overview never exceeds the number of rows
    of [matches], and equals it exactly when every row has an id and no id
    occurs twice. *)
Theorem total_counts_distinct_ids :
  0 <= total_ipl info <= Z.of_nat (List.length info)
  /\ (total_ipl info = Z.of_nat (List.length info)
      <-> NoDup (map id info) /\ ~ In None (map id info)).
Proof.
  unfold total_ipl, count_distinct.
  set (vals := map id info).
  set (present := flat_map (fun v : option Z => match v with
                                               | Some z => [z]
                                               | None => []
                                               end) vals).
  destruct (present_length vals) as [L1 E1]. fold present in L1, E1.
  destruct (nodup_length present) as [L2 E2].
  assert (LV : List.length vals = List.length info) by apply length_map.
  split; [lia|]. split.
  - intros H.
    assert (P : ~ In None vals) by (apply E1; lia).
    split; [|exact P].
    rewrite (present_some vals P). fold present.
    apply nodup_map_some, E2. lia.
  - intros [N P]. apply E1 in P as P'.
    assert (NoDup present).
    { rewrite (present_some vals P) in N. fold present in N.
      now apply NoDup_map_inv in N. }
    apply E2 in H. lia.
Qed.

End OverviewMore.

Section SeasonsMore.

Lemma in_unique (x : Z) (l : list Z) : In x (unique l) <-> In x l.
Proof.
  induction l as [|y l IH]; simpl; [tauto|].
  rewrite filter_In, IH, negb_true_iff, Z.eqb_neq.
  destruct (Z.eq_dec x y); intuition congruence.
Qed.

(** The first row of a season that is in the table. *)
Lemma season_section_finds_row (table : list SeasonRow) (selected : Z) :
  selected <> 0 ->
  In selected (season_options table) ->
  exists row,
    In row table /\ Season row = selected
    /\ season_section table selected
       = Some [metric "Winner" (Py.PStr (Winner row));
               metric "Runner-up" (Py.PStr (Runner_up row));
               metric "Player of Tournament" (Py.PStr (Player_of_Series row));
               metric "Purple Cap (Best Bowler)" (Py.PStr (Purple_Cap row));
               metric "Emerging Player" (Py.PStr (Emerging_Player row))].
Proof.
  intros NZ I. unfold season_options in I.
  apply in_unique, in_map_iff in I as [r [E I]].
  unfold season_section, Py.truthy.
  rewrite (proj2 (Z.eqb_neq selected 0) NZ). simpl negb. cbv iota.
  destruct (filter (fun r0 => Season r0 =? selected) table) as [|row rest] eqn:F.
  - exfalso. assert (X : In r (filter (fun r0 => Season r0 =? selected) table))
      by (apply filter_In; split; [exact I | now apply Z.eqb_eq]).
    now rewrite F in X.
  - assert (X : In row (filter (fun r0 => Season r0 =? selected) table))
      by (rewrite F; now left).
    apply filter_In in X as [X1 X2]. apply Z.eqb_eq in X2.
    exists row. repeat split; assumption.
Qed.

Lemma only_row_of_season (table : list SeasonRow) (a b : SeasonRow) :
  NoDup (map Season table) ->
  In a table -> In b table -> Season a = Season b -> a = b.
Proof.
  induction table as [|r table IH]; simpl; [intros _ []|].
  intros N A B E. inversion N as [|? ? NI N']; subst.
  destruct A as [->|A], B as [->|B].
  - reflexivity.
  - exfalso. apply NI. rewrite E. now apply in_map.
  - exfalso. apply NI. rewrite <- E. now apply in_map.
  - now apply IH.
Qed.

Lemma seasons_once : NoDup (map Season season_data).
Proof.
  assert (E : nodup Z.eq_dec (map Season season_data)
              = map Season season_data) by reflexivity.
  rewrite <- E. apply NoDup_nodup.
Qed.

(** X20. Every season offered by the selectbox has exactly one row in the
    table and the section shows that row's five entries, never failing on
    [.iloc[0]]; the season the selectbox starts on is offered and is the
    latest of them. *)
Theorem season_options_show_their_row (selected_season : Z) :
  In selected_season (season_options season_data) ->
  (exists row,
     In row season_data /\ Season row = selected_season
     /\ (forall other, In other season_data ->
           Season other = selected_season -> other = row)
     /\ season_section season_data selected_season
        = Some [metric "Winner" (Py.PStr (Winner row));
                metric "Runner-up" (Py.PStr (Runner_up row));
                metric "Player of Tournament"
                  (Py.PStr (Player_of_Series row));
                metric "Purple Cap (Best Bowler)" (Py.PStr (Purple_Cap row));
                metric "Emerging Player" (Py.PStr (Emerging_Player row))])
  /\ In (season_start season_data) (season_options season_data)
  /\ selected_season <= season_start season_data.
Proof.
  intros I.
  assert (B : 2008 <= selected_season <= 2024).
  { vm_compute in I. repeat destruct I as [<-|I]; try lia; contradiction. }
  split; [|split].
  - destruct (season_section_finds_row season_data selected_season
                ltac:(lia) I) as [row [R [E S]]].
    exists row. repeat split; try assumption.
    intros other O E'. apply (only_row_of_season season_data);
      [apply seasons_once | assumption | assumption | congruence].
  - vm_compute. tauto.
  - change (season_start season_data) with 2024. lia.
Qed.

End SeasonsMore.

Lemma season_options_show_their_row_witness :
  season_section season_data 2016
  = Some [metric "Winner" (Py.PStr "SRH");
          metric "Runner-up" (Py.PStr "RCB");
          metric "Player of Tournament" (Py.PStr "Virat Kohli");
          metric "Purple Cap (Best Bowler)" (Py.PStr "Bhuvneshwar Kumar");
          metric "Emerging Player" (Py.PStr "Mustafizur Rahman")]
  /\ 2016 <= season_start season_data.
Proof.
  destruct (season_options_show_their_row 2016
              ltac:(vm_compute; tauto)) as [[row [_ [_ [_ S]]]] [_ L]].
  split; [reflexivity | exact L].
Defined.

Section PageMore.

Variable season_df : list (Sql.text * Z).
Variable ui : Choices.



Lemma boundary_section_done (db : Database) (col : string) (sel : Sql.text) :
  String.eqb col (batter_label db) = true ->
  spliceable sel ->
  Script.result (boundary_section db col sel) = Script.Done tt.
Proof.
  intros C S. destruct sel as [T|]; [|reflexivity].
  destruct (String.eqb_spec T EmptyString) as [->|NE]; [reflexivity|].
  now apply boundary_section_metrics.
Qed.

Lemma team_section_done (db : Database) (sel : Sql.text) :
  spliceable sel ->
  Script.result (team_section db sel) = Script.Done tt.
Proof.
  intros S. destruct sel as [T|]; [|reflexivity].
  destruct (String.eqb_spec T EmptyString) as [->|NE]; [reflexivity|].
  simpl in S.
  open_team_section db T NE.
  generalize (limit 10 (order_by_count_desc (group_count (map venue
    (where_ (fun m : Match => eq_text (winner m) T) (matches db)))))).
  intros venues.
  cbn [Script.bind st Script.emit fst snd].
  set (kept := non_zero _). clearbody kept.
  destruct (0 <? count_if (participant T) (matches db)), kept, venues;
    reflexivity.
Qed.

Lemma bowler_section_done (db : Database) (sel : Sql.text) :
  spliceable sel ->
  Script.result (bowler_section db sel) = Script.Done tt.
Proof.
  intros S. destruct sel as [X|]; [|reflexivity].
  destruct (String.eqb_spec X EmptyString) as [->|NE]; [reflexivity|].
  simpl in S.
  unfold bowler_section, if_selected. rewrite (truthy_name X NE).
  send_queries.
  cbn [Script.bind st Script.emit fst snd].
  now destruct (order_by_count_desc _).
Qed.

Lemma then_completed (a b : Run) :
  snd a = Completed -> snd b = Completed -> snd (then_ a b) = Completed.
Proof. unfold then_. intros -> B. exact B. Qed.

Lemma of_page_completed (m : Page unit) :
  Script.result m = Script.Done tt -> snd (of_page m) = Completed.
Proof. unfold Script.result, of_page. simpl. now intros ->. Qed.


End PageMore.



